(** * pullTiles: regional map tile downloader

    A shallow embedding of [src/pullTiles.py] (class
    [RegionalAMapDownloader]) and the properties of its coordinate
    generator, tile fetcher and result-collection loop.

    Conventions of the embedding:
    - Python integers are [Z]; Python floats are the binary64 primitive
      floats, with the rounding of each operation; a computation that can
      raise returns a sum, [inl] for the value and [inr] for the exception;
    - [math.tan] and [math.asinh] are the functions of the C library of
      the platform: they are parameters, and nothing is assumed of them
      but what a theorem states;
    - the file system, the HTTP server, [time.sleep], [print] and the
      instance counter [self.downloaded] are an explicit [world] threaded
      through the effectful functions;
    - wall-clock readings ([time.time]) are not modelled: a progress line
      records the operands the code formats, not the formatted text. *)

From Stdlib Require Import ZArith List Lia String Ascii DecimalString DecimalPos
  DecimalZ Sorted QArith Floats.
From stdpp Require Import base gmap strings.
Import ListNotations.

Local Open Scope string_scope.
Local Open Scope list_scope.
Local Open Scope Z_scope.

(** ** Python helpers *)

(** [range(lo, hi)] on integers: [lo, lo+1, ..., hi-1], empty when [hi <= lo]. *)
Definition range (lo hi : Z) : list Z :=
  List.map (fun i => lo + Z.of_nat i) (seq 0 (Z.to_nat (hi - lo))).

(** [str(n)] / [f'{n}'] on an integer. *)
Definition str (n : Z) : string := NilZero.string_of_int (Z.to_int n).

Definition is_slash (c : ascii) : bool := (c =? "/")%char.

Fixpoint drop_while {A} (p : A -> bool) (l : list A) : list A :=
  match l with
  | [] => []
  | a :: l' => if p a then drop_while p l' else l
  end.

Definition starts_with_slash (s : string) : bool :=
  match s with
  | String c _ => is_slash c
  | EmptyString => false
  end.

Definition ends_with_slash (s : string) : bool := starts_with_slash (String.rev s).

(** [os.path.join(a, b)] (POSIX). *)
Definition path_join (a b : string) : string :=
  if starts_with_slash b then b
  else if (a =? "")%string then b
  else if ends_with_slash a then a +:+ b
  else a +:+ "/" +:+ b.

(** [os.path.dirname(p)] (POSIX): everything up to the last slash, with
    trailing slashes removed unless the head is made of slashes only. *)
Definition dirname (p : string) : string :=
  let head_rev := drop_while (fun c => negb (is_slash c)) (rev (list_ascii_of_string p)) in
  if forallb is_slash head_rev then string_of_list_ascii (rev head_rev)
  else string_of_list_ascii (rev (drop_while is_slash head_rev)).

(** ** Configuration *)

(** The [config] dictionary read by the downloader. *)
Record Config := {
  z_start : Z;
  z_end : Z;
  save_dir : string;
  max_workers : Z;
  request_interval : Q;
  overwrite : bool;
  headers : list (string * string)
}.

(** ** Exceptions and fallible computations *)

Inductive exn :=
| FileExistsError (path : string)
| NotADirectoryError (path : string)
| IsADirectoryError (path : string)
| RequestException (reason : string)
| OverflowError
| ValueError
| TypeError.

(** A computation that returns ([inl]) or raises ([inr]). *)
Notation "x <- c ;; k" :=
  (match c with inl x => k | inr e => inr e end)
  (at level 100, c at next level, right associativity).

(** ** Python numbers *)

(** A value that is an [int] or a [float]. *)
Inductive num :=
| Int (v : Z)
| Flt (f : float).

(** [math.pi]. *)
Definition pi : float := 0x1.921fb54442d18p+1.

(** [float(v)] on an int, as in [float * int]: the nearest binary64 value,
    [OverflowError] when it is too large. *)
Definition float_of_int (v : Z) : float + exn :=
  match binary_normalize prec emax v 0 false with
  | S754_infinity _ => inr OverflowError
  | sf => inl (SF2Prim sf)
  end.

(** [int(f)] on a float: truncation toward zero; [OverflowError] on an
    infinity and [ValueError] on a NaN. *)
Definition py_int (f : float) : Z + exn :=
  match Prim2SF f with
  | S754_zero _ => inl 0
  | S754_infinity _ => inr OverflowError
  | S754_nan => inr ValueError
  | S754_finite s m e =>
      let a := if 0 <=? e then Z.shiftl (Z.pos m) e else Z.shiftr (Z.pos m) (- e) in
      inl (if s then - a else a)
  end.

(** [b < f] for an int [b] and a float [f]: Python compares the exact
    values. *)
Definition int_lt_float (b : Z) (f : float) : bool :=
  match Prim2SF f with
  | S754_nan => false
  | S754_infinity s => negb s
  | S754_zero _ => b <? 0
  | S754_finite s m e =>
      let v := if s then Z.neg m else Z.pos m in
      if 0 <=? e then b <? v * 2 ^ e else b * 2 ^ (- e) <? v
  end.

(** [2**zoom]: an int for [zoom >= 0], the float [pow(2.0, zoom)]
    otherwise (an exact power of two, or 0.0 below the subnormals). *)
Definition pow2 (zoom : Z) : num + exn :=
  if 0 <=? zoom then inl (Int (2 ^ zoom))
  else _ <- float_of_int zoom ;; inl (Flt (Z.ldexp 1 zoom)).

(** [f * n] for a float [f]: an int operand is converted first. *)
Definition mul_num (f : float) (n : num) : float + exn :=
  match n with
  | Int v => nf <- float_of_int v ;; inl (f * nf)%float
  | Flt g => inl (f * g)%float
  end.

(** [n - 1] and [n + 1]. *)
Definition num_pred (n : num) : num :=
  match n with
  | Int v => Int (v - 1)
  | Flt g => Flt (g - 1)%float
  end.

Definition num_succ (n : num) : num :=
  match n with
  | Int v => Int (v + 1)
  | Flt g => Flt (g + 1)%float
  end.

(** [min(a, b)] with [b] an int: [b] when [b < a], else [a]. *)
Definition min_num_int (a : num) (b : Z) : num :=
  match a with
  | Int v => if b <? v then Int b else Int v
  | Flt f => if int_lt_float b f then Int b else Flt f
  end.

(** [range(lo, hi)] as the code calls it: [TypeError] on a float bound. *)
Definition py_range (lo : Z) (hi : num) : list Z + exn :=
  match hi with
  | Int h => inl (range lo h)
  | Flt _ => inr TypeError
  end.

(** The wrapper of the [math] module around a function of the C library:
    a NaN from a number, or an infinity from a finite number, is raised as
    [ValueError] ("math domain error"). *)
Definition math_1 (f : float -> float) (x : float) : float + exn :=
  let r := f x in
  if is_nan r && negb (is_nan x) then inr ValueError
  else if is_infinity r && is_finite x then inr ValueError
  else inl r.

(** [math.radians]: multiplication by the constant [pi / 180]. *)
Definition radians (deg : float) : float := (deg * (pi / 180))%float.

(** ** Coordinate generator *)

(** The [bounds] dictionary of [_get_tile_range]: 120.85, 122.20, 30.67
    and 31.88 as the binary64 values the literals denote. *)
Record bounding_box := {
  min_lon : float; max_lon : float; min_lat : float; max_lat : float
}.

Definition bounds : bounding_box :=
  {| min_lon := 0x1.e366666666666p+6; max_lon := 0x1.e8ccccccccccdp+6;
     min_lat := 0x1.eab851eb851ecp+4; max_lat := 0x1.fe147ae147ae1p+4 |}.

(** The rectangle [(x_min, x_max, y_min, y_max)] of two corner tiles when
    [max_tile] is the int [2^zoom - 1]. *)
Definition range_of_corners (zoom : Z) (c1 c2 : Z * Z) : Z * Z * Z * Z :=
  let '(x1, y1) := c1 in
  let '(x2, y2) := c2 in
  let max_tile := 2 ^ zoom - 1 in
  let x_min := Z.max 0 (Z.min x1 x2 - 1) in
  let x_max := Z.min max_tile (Z.max x1 x2 + 1) in
  let y_min := Z.max 0 (Z.min y1 y2 - 1) in
  let y_max := Z.min max_tile (Z.max y1 y2 + 1) in
  (x_min, x_max, y_min, y_max).

(** A tile coordinate [(z, x, y)]. *)
Definition coord : Type := Z * Z * Z.

(** The two inner loops of [generate_coordinates] over int bounds. *)
Definition level_tiles (z : Z) (rng : Z * Z * Z * Z) : list coord :=
  let '(x_min, x_max, y_min, y_max) := rng in
  flat_map (fun x => List.map (fun y => (z, x, y)) (range y_min (y_max + 1)))
           (range x_min (x_max + 1)).


Section Projection.

(** [math.tan] and [math.asinh] call the [tan] and [asinh] of the C
    library of the platform, which the source does not fix. *)
Variables libm_tan libm_asinh : float -> float.

(** [_latlon_to_tile(lat, lon, zoom)]. *)
Definition latlon_to_tile (lat lon : float) (zoom : Z) : (Z * Z) + exn :=
  let lat_rad := radians lat in
  n <- pow2 zoom ;;
  x <- mul_num ((lon + 180) / 360)%float n ;;
  t <- math_1 libm_tan lat_rad ;;
  a <- math_1 libm_asinh t ;;
  y <- mul_num ((1 - a / pi) / 2)%float n ;;
  xi <- py_int x ;;
  yi <- py_int y ;;
  inl (xi, yi).

(** [_get_tile_range(zoom)]: [x_max] and [y_max] are floats when
    [max_tile] is one, that is for a negative [zoom]. *)
Definition get_tile_range (zoom : Z) : (Z * num * Z * num) + exn :=
  c1 <- latlon_to_tile (max_lat bounds) (min_lon bounds) zoom ;;
  c2 <- latlon_to_tile (min_lat bounds) (max_lon bounds) zoom ;;
  n <- pow2 zoom ;;
  let '(x1, y1) := c1 in
  let '(x2, y2) := c2 in
  let max_tile := num_pred n in
  let x_min := Z.max 0 (Z.min x1 x2 - 1) in
  let x_max := min_num_int max_tile (Z.max x1 x2 + 1) in
  let y_min := Z.max 0 (Z.min y1 y2 - 1) in
  let y_max := min_num_int max_tile (Z.max y1 y2 + 1) in
  inl (x_min, x_max, y_min, y_max).

(** One round of the loop over [z]: the triples it yields, or the
    exception raised before the first of them. The inner [range] is only
    evaluated when the outer one is not empty. *)
Definition level (z : Z) : list coord + exn :=
  rng <- get_tile_range z ;;
  let '(x_min, x_max, y_min, y_max) := rng in
  xs <- py_range x_min (num_succ x_max) ;;
  match xs with
  | [] => inl []
  | _ :: _ =>
      ys <- py_range y_min (num_succ y_max) ;;
      inl (flat_map (fun x => List.map (fun y => (z, x, y)) ys) xs)
  end.

(** The generator over the remaining levels: what it yields, and the
    exception that ends it, if any. *)
Fixpoint generate_levels (zs : list Z) : list coord * option exn :=
  match zs with
  | [] => ([], None)
  | z :: rest =>
      match level z with
      | inr e => ([], Some e)
      | inl tiles =>
          let '(more, e) := generate_levels rest in (tiles ++ more, e)
      end
  end.

(** [generate_coordinates()]. *)
Definition generate_coordinates (cfg : Config) : list coord * option exn :=
  generate_levels (range (z_start cfg) (z_end cfg + 1)).



End Projection.

(** The column of a longitude: the part of [_latlon_to_tile] that does not
    go through the C library. *)
Definition column (lon : float) (zoom : Z) : Z + exn :=
  n <- pow2 zoom ;;
  x <- mul_num ((lon + 180) / 360)%float n ;;
  py_int x.




(** ** The world of the fetcher *)

Inductive node :=
| File (content : string)
| Dir.

(** What one [requests.get] does: a response, or a raised exception. *)
Inductive http_result :=
| Response (status_code : Z) (content : string)
| Unreachable (e : exn).

Inductive event :=
| HttpGet (url : string)
| Sleep (seconds : Z)
| PrintFailure (z x y : Z) (e : exn).

Record world := {
  fs : gmap string node;     (* path |-> regular file or directory *)
  sent : nat;                (* HTTP requests issued so far *)
  trace : list event;        (* requests, sleeps and prints, oldest first *)
  downloaded : Z             (* self.downloaded *)
}.

Definition set_fs (f : gmap string node) (w : world) : world :=
  {| fs := f; sent := sent w; trace := trace w; downloaded := downloaded w |}.

Definition log (e : event) (w : world) : world :=
  {| fs := fs w; sent := sent w; trace := trace w ++ [e]; downloaded := downloaded w |}.

Definition bump_downloaded (w : world) : world :=
  {| fs := fs w; sent := sent w; trace := trace w; downloaded := downloaded w + 1 |}.

(** [os.path.exists]. *)
Definition path_exists (f : gmap string node) (p : string) : bool :=
  match f !! p with
  | Some _ => true
  | None => false
  end.

(** The directories on the way to [acc ++ s], outermost first: every
    non-empty prefix that ends just before a slash. *)
Fixpoint ancestors_from (acc s : string) : list string :=
  match s with
  | EmptyString => []
  | String c s' =>
      let rest := ancestors_from (acc +:+ String c EmptyString) s' in
      if is_slash c && negb (acc =? "")%string && negb (ends_with_slash acc)
      then acc :: rest else rest
  end.

(** [mkdir] along a chain of directories, outermost first, tolerating
    those that exist. A regular file in the chain stops it: [mkdir] of the
    next directory, below that file, raises [NotADirectoryError] with the
    path of that directory; when the file is the last element, the
    directory asked for, [mkdir] raises [FileExistsError] with its path. *)
Fixpoint mkdir_chain (ds : list string) (f : gmap string node)
  : gmap string node * option exn :=
  match ds with
  | [] => (f, None)
  | d :: ds' =>
      match f !! d with
      | Some (File _) =>
          (f, Some (match ds' with
                    | [] => FileExistsError d
                    | d' :: _ => NotADirectoryError d'
                    end))
      | Some Dir => mkdir_chain ds' f
      | None => mkdir_chain ds' (<[d := Dir]> f)
      end
  end.

(** [os.makedirs(name, exist_ok=True)]: the resulting file system and the
    exception raised, if any. Paths are compared as written (no
    normalisation, no symbolic links), the file system is taken
    well formed (what exists has its parents as directories), and the only
    error is a regular file in the place of a directory. *)
Definition makedirs (name : string) (f : gmap string node)
  : gmap string node * option exn :=
  mkdir_chain (ancestors_from "" name ++ [name]) f.

(** [with open(path, 'wb') as f: f.write(content)]: [open] fails on a
    directory; otherwise the file is created or replaced with the whole
    content. *)
Definition write_file (path content : string) (f : gmap string node)
  : gmap string node + exn :=
  match f !! path with
  | Some Dir => inr (IsADirectoryError path)
  | _ => inl (<[path := File content]> f)
  end.

(** ** Tile fetcher *)

(** Which [return] statement of [download_tile] was taken. *)
Inductive outcome :=
| Success            (* line 70: return True *)
| SkippedExisting    (* line 59: return False *)
| Failed.            (* line 75: return False *)

(** The Python value returned on each path. *)
Definition returned (o : outcome) : bool :=
  match o with
  | Success => true
  | SkippedExisting => false
  | Failed => false
  end.

(** How a call (or a future) ends. *)
Inductive result :=
| Return (o : outcome)
| Raise (e : exn).

Definition tile_url (z x y : Z) : string :=
  "https://webrd04.is.autonavi.com/appmaptile?lang=zh_cn&size=1&scale=1&style=7&x="
    +:+ str x +:+ "&y=" +:+ str y +:+ "&z=" +:+ str z.

Definition tile_path (cfg : Config) (z x y : Z) : string :=
  path_join (save_dir cfg) (str z +:+ "/" +:+ str x +:+ "/" +:+ str y +:+ ".png").

(** The world once one more request, to [url], has been sent. *)
Definition sent_request (url : string) (w : world) : world :=
  {| fs := fs w; sent := S (sent w); trace := trace w ++ [HttpGet url];
     downloaded := downloaded w |}.

Section Fetcher.

(** The tile server and the network: what the [n]-th request of the run,
    sent to [url], meets. *)
Variable server : string -> nat -> http_result.

(** [requests.get(url, headers=..., timeout=5)]; what the headers and the
    timeout change is part of [server]. *)
Definition requests_get (url : string) (w : world) : http_result * world :=
  (server url (sent w), sent_request url w).

(** The [except Exception as e] handler. *)
Definition handle (z x y retry : Z) (e : exn) (w : world) : world :=
  log (Sleep (2 ^ retry)) (log (PrintFailure z x y e) w).

(** The loop [for retry in range(3)] over the remaining values of
    [retry], with the final [return False]. *)
Fixpoint attempts (url path : string) (z x y : Z) (retries : list Z) (w : world)
  : outcome * world :=
  match retries with
  | [] => (Failed, w)
  | retry :: rest =>
      let '(r, w1) := requests_get url w in
      match r with
      | Response status_code content =>
          if status_code =? 200 then
            match write_file path content (fs w1) with
            | inl f => (Success, bump_downloaded (set_fs f w1))
            | inr e => attempts url path z x y rest (handle z x y retry e w1)
            end
          else attempts url path z x y rest (log (Sleep 1) w1)
      | Unreachable e => attempts url path z x y rest (handle z x y retry e w1)
      end
  end.

(** [download_tile(z, x, y)]. *)
Definition download_tile (cfg : Config) (z x y : Z) (w : world) : result * world :=
  let url := tile_url z x y in
  let path := tile_path cfg z x y in
  if negb (overwrite cfg) && path_exists (fs w) path then (Return SkippedExisting, w)
  else
    match makedirs (dirname path) (fs w) with
    | (f, Some e) => (Raise e, set_fs f w)
    | (f, None) =>
        let '(o, w') := attempts url path z x y (range 0 3) (set_fs f w) in
        (Return o, w')
    end.

(** The tasks of [run], executed one after the other in submission order
    (the schedule of a single worker); every task runs, whatever the
    earlier ones did, and its end is kept in its future. *)
Fixpoint execute (cfg : Config) (coords : list coord) (w : world)
  : list result * world :=
  match coords with
  | [] => ([], w)
  | (z, x, y) :: rest =>
      let '(r, w1) := download_tile cfg z x y w in
      let '(rs, w2) := execute cfg rest w1 in
      (r :: rs, w2)
  end.

End Fetcher.

(** ** Result collection *)

(** The operands of one progress line:
    [{i+1}/{total}], [success/(i+1)] and [i/elapsed]. *)
Record progress := {
  p_done : Z;
  p_total : Z;
  p_rate_num : Z;
  p_rate_den : Z;
  p_speed_num : Z
}.

(** The state of the collection loop: the number of results processed (the
    next value of [i]), the local [success], and the lines printed. *)
Record stats := {
  completed : Z;
  success : Z;
  printed : list progress
}.

Definition stats0 : stats := {| completed := 0; success := 0; printed := [] |}.

(** One iteration of [for i, future in enumerate(futures)] on a future that
    returned [o]. *)
Definition tally (total : Z) (o : outcome) (st : stats) : stats :=
  let i := completed st in
  let success' := if returned o then success st + 1 else success st in
  {| completed := i + 1;
     success := success';
     printed :=
       if i mod 100 =? 0
       then printed st ++ [{| p_done := i + 1; p_total := total;
                              p_rate_num := success'; p_rate_den := i + 1;
                              p_speed_num := i |}]
       else printed st |}.

(** The collection loop; [future.result()] re-raises the exception of a
    task that raised, which ends the loop. *)
Fixpoint collect (total : Z) (futures : list result) (st : stats)
  : stats * option exn :=
  match futures with
  | [] => (st, None)
  | Raise e :: _ => (st, Some e)
  | Return o :: rest => collect total rest (tally total o st)
  end.

(** [run()] on the materialised coordinate sequence. *)
Definition run_on (server : string -> nat -> http_result) (cfg : Config)
    (coords : list coord) (w : world) : stats * option exn * world :=
  let total := Z.of_nat (length coords) in
  let '(futures, w') := execute server cfg coords w in
  (collect total futures stats0, w').

(** [run()]: the generator is first consumed to count the tiles (line
    79); an exception raised there leaves [run] before any task is
    submitted. *)
Definition run (libm_tan libm_asinh : float -> float)
    (server : string -> nat -> http_result) (cfg : Config) (w : world)
  : stats * option exn * world :=
  match generate_coordinates libm_tan libm_asinh cfg with
  | (_, Some e) => (stats0, Some e, w)
  | (coords, None) => run_on server cfg coords w
  end.

Definition outcome_eqb (a b : outcome) : bool :=
  match a, b with
  | Success, Success => true
  | SkippedExisting, SkippedExisting => true
  | Failed, Failed => true
  | _, _ => false
  end.

(** Number of results with a given outcome. *)
Definition count_outcome (o : outcome) (os : list outcome) : Z :=
  Z.of_nat (length (List.filter (outcome_eqb o) os)).

Definition gets (t : list event) : list string :=
  flat_map (fun e => match e with HttpGet u => [u] | _ => [] end) t.

Definition sleeps (t : list event) : list Z :=
  flat_map (fun e => match e with Sleep s => [s] | _ => [] end) t.

(** The regular files of a file system. *)
Definition is_file (f : gmap string node) (p : string) : Prop :=
  exists c, f !! p = Some (File c).

(** ** Sample inputs *)

Definition sample_config : Config :=
  {| z_start := 13; z_end := 13; save_dir := "./shanghai_tiles";
     max_workers := 6; request_interval := 0.2; overwrite := false;
     headers := [("User-Agent", "Mozilla/5.0 (Windows NT 10.0; Win64; x64)");
                 ("Referer", "https://www.amap.com/")] |}.

Definition empty_world : world :=
  {| fs := ∅; sent := 0%nat; trace := []; downloaded := 0 |}.

Definition server_ok : string -> nat -> http_result :=
  fun _ _ => Response 200 "PNG".

Definition server_500 : string -> nat -> http_result :=
  fun _ _ => Response 500 "".

Definition server_down : string -> nat -> http_result :=
  fun _ _ => Unreachable (RequestException "timed out").

(** Polynomial stand-ins for the C library, close to [tan] and [asinh] on
    the latitudes of the box. *)
Definition poly_tan (x : float) : float :=
  (x + x * x * x / 3 + 2 * x * x * x * x * x / 15 + 17 * x * x * x * x * x * x * x / 315)%float.

Definition poly_asinh (x : float) : float :=
  (x - x * x * x / 6 + 3 * x * x * x * x * x / 40 - 15 * x * x * x * x * x * x * x / 336)%float.


(** The columns of the two corners of the box lie in the grid of the level,
    the north-west one not right of the south-east one. *)
Definition columns_in_grid (zoom : Z) : bool :=
  match column (min_lon bounds) zoom, column (max_lon bounds) zoom with
  | inl x1, inl x2 => (0 <=? x1) && (x1 <=? x2) && (x2 <=? 2 ^ zoom - 1)
  | _, _ => false
  end.

(** The sample configuration one level below zero, and at level 1024. *)
Definition negative_config : Config :=
  {| z_start := -1; z_end := 0; save_dir := "./shanghai_tiles";
     max_workers := 6; request_interval := 0.2; overwrite := false;
     headers := [] |}.

Definition huge_config : Config :=
  {| z_start := 1024; z_end := 1024; save_dir := "./shanghai_tiles";
     max_workers := 6; request_interval := 0.2; overwrite := false;
     headers := [] |}.

(** The largest float below 180. *)
Definition below_180 : float := 0x1.67fffffffffffp+7.

(** The columns of the longitudes -180, 0, 180 and of the largest float
    below 180 at a level: 0, the middle of the grid, and [2^zoom] twice. *)
Definition edge_columns (zoom : Z) : bool :=
  match column (-180) zoom, column 0 zoom, column 180 zoom, column below_180 zoom with
  | inl a, inl b, inl c, inl d =>
      (a =? 0) && ((zoom =? 0) || (b =? 2 ^ (zoom - 1))) && (c =? 2 ^ zoom) && (d =? 2 ^ zoom)
  | _, _, _, _ => false
  end.

Definition is_float (n : num) : bool :=
  match n with
  | Flt _ => true
  | Int _ => false
  end.

(** At a level where the two corner columns are returned, the [x_max] that
    [_get_tile_range] computes from them is a float. *)
Definition float_bound (zoom : Z) : bool :=
  match column (min_lon bounds) zoom, column (max_lon bounds) zoom, pow2 zoom with
  | inl x1, inl x2, inl n => is_float (min_num_int (num_pred n) (Z.max x1 x2 + 1))
  | _, _, _ => true
  end.


(** What every progress line satisfies: the position in the run it
    reports, and the operands of its rate and speed. *)
Definition line_at (total : Z) (p : progress) : Prop :=
  p_total p = total /\ p_rate_den p = p_done p /\
  p_speed_num p = p_done p - 1 /\ (p_done p - 1) mod 100 = 0.

(** The indices of [lo, hi) at which a progress line is printed. *)
Definition report_points (lo hi : Z) : list Z :=
  List.filter (fun i => i mod 100 =? 0) (range lo hi).

(** A save directory in which the entry for level 13 is a regular file. *)
Definition blocked_world : world :=
  {| fs := <["./shanghai_tiles/13" := File "notes"]>
             (<["./shanghai_tiles" := Dir]> (<["." := Dir]> ∅));
     sent := 0%nat; trace := []; downloaded := 0 |}.

(** A save directory that already holds tile (13, 6849, 3343). *)
Definition present_world : world :=
  {| fs := <["./shanghai_tiles/13/6849/3343.png" := File "PNG"]>
             (<["./shanghai_tiles/13/6849" := Dir]>
                (<["./shanghai_tiles/13" := Dir]>
                   (<["./shanghai_tiles" := Dir]> (<["." := Dir]> ∅))));
     sent := 0%nat; trace := []; downloaded := 0 |}.

Definition five_tiles : list coord :=
  [(13, 6849, 3343); (13, 6849, 3344); (13, 6849, 3345); (13, 6849, 3346);
   (13, 6849, 3347)].

(** The sample configuration with [overwrite] set. *)
Definition overwrite_config : Config :=
  {| z_start := 13; z_end := 13; save_dir := "./shanghai_tiles";
     max_workers := 6; request_interval := 0.2; overwrite := true;
     headers := [] |}.

(** A save directory in which the path of tile (13, 6849, 3343) is a
    directory. *)
Definition obstructed_world : world :=
  {| fs := <["./shanghai_tiles/13/6849/3343.png" := Dir]>
             (<["./shanghai_tiles/13/6849" := Dir]>
                (<["./shanghai_tiles/13" := Dir]>
                   (<["./shanghai_tiles" := Dir]> (<["." := Dir]> ∅))));
     sent := 0%nat; trace := []; downloaded := 0 |}.

(** A server whose first answer is lost and which answers from then on. *)
Definition server_flaky : string -> nat -> http_result :=
  fun _ n => match n with
             | O => Unreachable (RequestException "timed out")
             | S _ => Response 200 "PNG"
             end.


(** The characters of a decimal numeral as [str] prints it. *)
Definition numeral_char (c : ascii) : bool :=
  match c with
  | "0" | "1" | "2" | "3" | "4" | "5" | "6" | "7" | "8" | "9" | "-" => true
  | _ => false
  end%char.

Fixpoint numeral (s : string) : bool :=
  match s with
  | EmptyString => true
  | String c s' => numeral_char c && numeral s'
  end.

(** * Properties *)

(** ** Sample evaluations *)

Example range_3_6 : range 3 6 = [3; 4; 5].
Proof. reflexivity. Qed.

Example range_backwards : range 5 2 = [].
Proof. reflexivity. Qed.

Example range_of_corners_zoom_0 : range_of_corners 0 (0, 0) (0, 0) = (0, 0, 0, 0).
Proof. reflexivity. Qed.

Example range_of_corners_zoom_13 :
  range_of_corners 13 (6845, 3329) (6876, 3362) = (6844, 6877, 3328, 3363).
Proof. reflexivity. Qed.

Example level_tiles_2x2 :
  level_tiles 1 (0, 1, 0, 1) = [(1, 0, 0); (1, 0, 1); (1, 1, 0); (1, 1, 1)].
Proof. reflexivity. Qed.

Example tile_path_sample :
  tile_path sample_config 13 6849 3343 = "./shanghai_tiles/13/6849/3343.png" /\
  dirname (tile_path sample_config 13 6849 3343) = "./shanghai_tiles/13/6849".
Proof. split; reflexivity. Qed.

Example download_tile_success :
  let '(r, w') := download_tile server_ok sample_config 13 6849 3343 empty_world in
  r = Return Success /\ sent w' = 1%nat /\ sleeps (trace w') = [] /\
  fs w' !! "./shanghai_tiles/13/6849/3343.png" = Some (File "PNG").
Proof. vm_compute. repeat split; reflexivity. Qed.

(** ** The coordinate sequence *)


Lemma range_In (lo hi v : Z) : In v (range lo hi) <-> lo <= v < hi.
Proof.
  unfold range. rewrite in_map_iff. split.
  - intros [i [Hv Hi]]. apply in_seq in Hi. lia.
  - intros Hv. exists (Z.to_nat (v - lo)). split; [lia | apply in_seq; lia].
Qed.

Lemma range_cons (lo hi : Z) : lo < hi -> range lo hi = lo :: range (lo + 1) hi.
Proof.
  intros H. unfold range. replace (Z.to_nat (hi - lo)) with (S (Z.to_nat (hi - (lo + 1)))) by lia.
  cbn [seq List.map]. f_equal; [lia|]. rewrite <- seq_shift, map_map.
  apply map_ext. intros i. lia.
Qed.

Lemma range_empty (lo : Z) : range lo lo = [].
Proof. unfold range. rewrite Z.sub_diag. reflexivity. Qed.




Section SortedSequences.

Context {A B : Type} (RA : A -> A -> Prop) (RB : B -> B -> Prop).





End SortedSequences.


Lemma level_tiles_In (z : Z) (rng : Z * Z * Z * Z) (c : coord) :
  In c (level_tiles z rng) <->
  let '(x_min, x_max, y_min, y_max) := rng in
  let '(z', x, y) := c in
  z' = z /\ x_min <= x <= x_max /\ y_min <= y <= y_max.
Proof.
  destruct rng as [[[x_min x_max] y_min] y_max], c as [[z' x] y].
  unfold level_tiles. rewrite in_flat_map. split.
  - intros [x' [Hx' Hc]]. apply in_map_iff in Hc. destruct Hc as [y' [Hc Hy']].
    apply range_In in Hx', Hy'. inversion Hc; subst. lia.
  - intros [-> [Hx Hy]]. exists x. split; [apply range_In; lia|].
    apply in_map_iff. exists y. split; [reflexivity | apply range_In; lia].
Qed.




(** ** The range of a level *)

(** The columns of the two corners, computed in binary64 at each of the
    levels 0 to 1023. *)
Lemma columns_checked : forallb columns_in_grid (range 0 1024) = true.
Proof. vm_compute. reflexivity. Qed.

Lemma corner_columns (zoom : Z) :
  0 <= zoom <= 1023 ->
  exists x1 x2,
    column (min_lon bounds) zoom = inl x1 /\ column (max_lon bounds) zoom = inl x2 /\
    0 <= x1 <= x2 /\ x2 <= 2 ^ zoom - 1.
Proof.
  intros Hz. pose proof columns_checked as H. rewrite forallb_forall in H.
  specialize (H zoom). unfold columns_in_grid in H.
  destruct (column (min_lon bounds) zoom) as [x1|e1];
    [|discriminate H; apply range_In; lia].
  destruct (column (max_lon bounds) zoom) as [x2|e2];
    [|discriminate H; apply range_In; lia].
  exists x1, x2. split; [reflexivity|]. split; [reflexivity|].
  assert (Hb : (0 <=? x1) && (x1 <=? x2) && (x2 <=? 2 ^ zoom - 1) = true)
    by (apply H, range_In; lia).
  apply andb_prop in Hb. destruct Hb as [Hb H3]. apply andb_prop in Hb.
  destruct Hb as [H1 H2]. apply Z.leb_le in H1, H2, H3. lia.
Qed.

Lemma pow2_nonneg (zoom : Z) : 0 <= zoom -> pow2 zoom = inl (Int (2 ^ zoom)).
Proof. intros H. unfold pow2. destruct (Z.leb_spec 0 zoom); [reflexivity | lia]. Qed.

Lemma min_num_int_Int (v b : Z) : min_num_int (Int v) b = Int (Z.min v b).
Proof.
  unfold min_num_int. destruct (Z.ltb_spec b v); f_equal; lia.
Qed.

Section Range.

Variables libm_tan libm_asinh : float -> float.

(** The column returned by [_latlon_to_tile] does not go through the C
    library. *)
Lemma latlon_to_tile_column (lat lon : float) (zoom x y : Z) :
  latlon_to_tile libm_tan libm_asinh lat lon zoom = inl (x, y) ->
  column lon zoom = inl x.
Proof.
  unfold latlon_to_tile, column. destruct (pow2 zoom) as [n|e]; [|discriminate].
  destruct (mul_num ((lon + 180) / 360) n) as [xf|e]; [|discriminate].
  destruct (math_1 libm_tan (radians lat)) as [t|e]; [|discriminate].
  destruct (math_1 libm_asinh t) as [a|e]; [|discriminate].
  destruct (mul_num ((1 - a / pi) / 2) n) as [yf|e]; [|discriminate].
  destruct (py_int xf) as [xi|e]; [|discriminate].
  destruct (py_int yf) as [yi|e]; [|discriminate].
  intros H. inversion H. reflexivity.
Qed.


(** At a level [zoom >= 0] where the projection returns for both corners,
    [_get_tile_range] returns the int rectangle of the two corner tiles. *)
Lemma get_tile_range_returns (zoom x1 y1 x2 y2 : Z) :
  0 <= zoom ->
  latlon_to_tile libm_tan libm_asinh (max_lat bounds) (min_lon bounds) zoom = inl (x1, y1) ->
  latlon_to_tile libm_tan libm_asinh (min_lat bounds) (max_lon bounds) zoom = inl (x2, y2) ->
  get_tile_range libm_tan libm_asinh zoom =
  inl (Z.max 0 (Z.min x1 x2 - 1), Int (Z.min (2 ^ zoom - 1) (Z.max x1 x2 + 1)),
       Z.max 0 (Z.min y1 y2 - 1), Int (Z.min (2 ^ zoom - 1) (Z.max y1 y2 + 1))).
Proof.
  intros Hz H1 H2. unfold get_tile_range. rewrite H1, H2, (pow2_nonneg zoom Hz).
  cbn [num_pred]. rewrite !min_num_int_Int. reflexivity.
Qed.



End Range.


(** The conversion of a power of two from level 1024 on: the shifts of
    the rounding leave a mantissa of 53 bits with an exponent above the
    largest one. *)
Lemma iter_pos_nat {A} (f : A -> A) (p : positive) (x : A) :
  SpecFloat.iter_pos f p x = Nat.iter (Pos.to_nat p) f x.
Proof.
  revert x. induction p as [p IH|p IH|]; intros x; cbn [SpecFloat.iter_pos].
  - rewrite !IH, Pos2Nat.inj_xI.
    replace (S (2 * Pos.to_nat p)) with (Pos.to_nat p + (Pos.to_nat p + 1))%nat by lia.
    rewrite !Nat.iter_add. reflexivity.
  - rewrite !IH, Pos2Nat.inj_xO.
    replace (2 * Pos.to_nat p)%nat with (Pos.to_nat p + Pos.to_nat p)%nat by lia.
    rewrite Nat.iter_add. reflexivity.
  - reflexivity.
Qed.

Lemma power_of_two_bits (n : nat) : 2 ^ Z.of_nat n = Z.pos (Nat.iter n xO 1%positive).
Proof.
  induction n as [|n IH]; [reflexivity|].
  rewrite Nat2Z.inj_succ, Z.pow_succ_r, IH by lia. reflexivity.
Qed.

Lemma power_of_two_digits (n : nat) :
  Z.pos (digits2_pos (Nat.iter n xO 1%positive)) = Z.of_nat n + 1.
Proof.
  induction n as [|n IH]; [reflexivity|].
  change (Nat.iter (S n) xO 1%positive) with (xO (Nat.iter n xO 1%positive)).
  cbn [digits2_pos]. rewrite Pos2Z.inj_succ, IH. lia.
Qed.

Lemma power_of_two_shifted (d k : nat) :
  Nat.iter d shr_1 {| shr_m := Z.pos (Nat.iter (d + k) xO 1%positive);
                      shr_r := false; shr_s := false |}
  = {| shr_m := Z.pos (Nat.iter k xO 1%positive); shr_r := false; shr_s := false |}.
Proof.
  induction d as [|d IH]; [reflexivity|].
  rewrite Nat.iter_succ_r.
  change (Nat.iter (S d + k) xO 1%positive) with (xO (Nat.iter (d + k) xO 1%positive)).
  cbn [shr_1 orb]. exact IH.
Qed.

Lemma float_of_int_overflows (z : Z) :
  1024 <= z -> float_of_int (2 ^ z) = inr OverflowError.
Proof.
  intros Hz. unfold float_of_int.
  replace z with (Z.of_nat (Z.to_nat z)) by lia.
  assert (Hn : (1024 <= Z.to_nat z)%nat) by lia.
  generalize dependent (Z.to_nat z). clear z Hz. intros n Hn.
  rewrite power_of_two_bits. cbn [binary_normalize]. unfold binary_round.
  assert (He : fexp prec emax (Z.pos (digits2_pos (Nat.iter n xO 1%positive)) + 0)
               = Z.of_nat n - 52).
  { rewrite power_of_two_digits. unfold fexp, emin, prec, emax. lia. }
  rewrite He. unfold shl_align.
  destruct (Z.of_nat n - 52 - 0) as [|q|q] eqn:Hq; try lia.
  unfold binary_round_aux, shr_fexp. cbn [Zdigits2 shr_record_of_loc].
  rewrite He, Hq. cbn [shr]. rewrite iter_pos_nat.
  assert (Hnq : n = (Pos.to_nat q + 52)%nat) by lia.
  clear He Hq. subst n.
  rewrite power_of_two_shifted. cbn [shr_m loc_of_shr_record round_nearest_even].
  cbn [Zdigits2].
  assert (He2 : fexp prec emax (Z.pos (digits2_pos (Nat.iter 52 xO 1%positive))
                                + (0 + Z.pos q)) - (0 + Z.pos q) = 0).
  { rewrite power_of_two_digits. unfold fexp, emin, prec, emax. lia. }
  rewrite He2. cbn [shr shr_m shr_record_of_loc].
  destruct (Z.leb_spec (0 + Z.pos q) (emax - prec)) as [H|H]; [|reflexivity].
  unfold emax, prec in H. lia.
Qed.

(** From level 1024 on the conversion of [2**zoom] to a float on line 16
    raises [OverflowError], before the C library is called and whatever
    the point. *)
Lemma latlon_to_tile_overflows (libm_tan libm_asinh : float -> float) (lat lon : float)
    (zoom : Z) :
  1024 <= zoom -> latlon_to_tile libm_tan libm_asinh lat lon zoom = inr OverflowError.
Proof.
  intros Hz. unfold latlon_to_tile. rewrite pow2_nonneg by lia.
  unfold mul_num. rewrite (float_of_int_overflows zoom Hz). reflexivity.
Qed.


(** ** The generator *)


Section Generator.

Variables libm_tan libm_asinh : float -> float.

Lemma level_returns (z x_min x_max y_min y_max : Z) :
  get_tile_range libm_tan libm_asinh z = inl (x_min, Int x_max, y_min, Int y_max) ->
  level libm_tan libm_asinh z = inl (level_tiles z (x_min, x_max, y_min, y_max)).
Proof.
  intros H. unfold level. rewrite H. cbn [num_succ py_range]. unfold level_tiles.
  destruct (range x_min (x_max + 1)); reflexivity.
Qed.

(** A round that does not raise has an int [x_max]; it yields the tiles of
    an int rectangle, or nothing when the range of [x] is empty and
    [y_max] is a float. *)
Lemma level_inversion (z : Z) (tiles : list coord) :
  level libm_tan libm_asinh z = inl tiles ->
  (exists x_min x_max y_min y_max,
     get_tile_range libm_tan libm_asinh z = inl (x_min, Int x_max, y_min, Int y_max) /\
     tiles = level_tiles z (x_min, x_max, y_min, y_max)) \/
  (exists x_min x_max y_min f,
     get_tile_range libm_tan libm_asinh z = inl (x_min, Int x_max, y_min, Flt f) /\
     tiles = []).
Proof.
  intros Hl.
  destruct (get_tile_range libm_tan libm_asinh z) as [[[[x_min x_max] y_min] y_max]|e] eqn:Hr.
  2: { unfold level in Hl. rewrite Hr in Hl. discriminate. }
  destruct x_max as [xm|xf].
  2: { unfold level in Hl. rewrite Hr in Hl. discriminate. }
  destruct y_max as [ym|yf].
  - left. rewrite (level_returns _ _ _ _ _ Hr) in Hl. injection Hl as <-.
    exists x_min, xm, y_min, ym. auto.
  - right. unfold level in Hl. rewrite Hr in Hl. cbn [num_succ py_range] in Hl.
    destruct (range x_min (xm + 1)); [|discriminate]. injection Hl as <-.
    exists x_min, xm, y_min, yf. auto.
Qed.

(** What one round of the loop over [z] yields, when it does not raise. *)
Lemma level_In (z : Z) (tiles : list coord) (z' x y : Z) :
  level libm_tan libm_asinh z = inl tiles ->
  In (z', x, y) tiles <->
  z' = z /\
  exists x_min x_max y_min y_max,
    get_tile_range libm_tan libm_asinh z = inl (x_min, Int x_max, y_min, Int y_max) /\
    x_min <= x <= x_max /\ y_min <= y <= y_max.
Proof.
  intros Hl. destruct (level_inversion z tiles Hl)
    as [(x_min & xm & y_min & ym & Hr & ->) | (x_min & xm & y_min & yf & Hr & ->)].
  - rewrite level_tiles_In. split.
    + intros (Hz & Hx & Hy). split; [exact Hz|]. exists x_min, xm, y_min, ym. auto.
    + intros (Hz & a & b & c & d & Hr' & Hx & Hy). rewrite Hr in Hr'.
      injection Hr' as E1 E2 E3 E4. subst a b c d. auto.
  - split; [intros []|]. intros (_ & a & b & c & d & Hr' & _). rewrite Hr in Hr'.
    discriminate Hr'.
Qed.





End Generator.



(** ** The fetcher *)

Lemma range_0_3 : range 0 3 = [0; 1; 2].
Proof. reflexivity. Qed.

(** The early return of [download_tile]. *)
Lemma download_tile_skip server (cfg : Config) (z x y : Z) (w : world) :
  overwrite cfg = false ->
  path_exists (fs w) (tile_path cfg z x y) = true ->
  download_tile server cfg z x y w = (Return SkippedExisting, w).
Proof.
  intros Ho He. unfold download_tile. rewrite Ho, He. reflexivity.
Qed.

(** C7: when the target file exists and [overwrite] is false, the fetch
    returns the skipped outcome at once and sends no HTTP request; a second
    call from the resulting world does the same, so that after both calls
    no request has been sent. *)
Theorem skip_existing_idempotent server (cfg : Config) (z x y : Z) (w : world) :
  overwrite cfg = false ->
  path_exists (fs w) (tile_path cfg z x y) = true ->
  let '(r1, w1) := download_tile server cfg z x y w in
  let '(r2, w2) := download_tile server cfg z x y w1 in
  r1 = Return SkippedExisting /\ r2 = Return SkippedExisting /\
  sent w1 = sent w /\ gets (trace w1) = gets (trace w) /\
  sent w2 = sent w /\ gets (trace w2) = gets (trace w) /\
  trace w2 = trace w.
Proof.
  intros Ho He. rewrite (download_tile_skip server cfg z x y w Ho He).
  rewrite (download_tile_skip server cfg z x y w Ho He). repeat split; reflexivity.
Qed.

(** C10: when the target file exists and [overwrite] is false, the fetch
    leaves the file system as it was: the existence check comes before
    [os.makedirs], so no directory is created, no file is written, and a
    parent directory that could not be created raises nothing. *)
Theorem skip_existing_preserves_fs server (cfg : Config) (z x y : Z) (w : world) :
  overwrite cfg = false ->
  path_exists (fs w) (tile_path cfg z x y) = true ->
  fs (snd (download_tile server cfg z x y w)) = fs w /\
  (forall e, fst (download_tile server cfg z x y w) <> Raise e).
Proof.
  intros Ho He. rewrite (download_tile_skip server cfg z x y w Ho He).
  split; [reflexivity | discriminate].
Qed.

(** [os.makedirs] adds directories only: regular files and their contents
    are those of the initial file system. *)
Lemma mkdir_chain_files (ds : list string) (f : gmap string node) (p c : string) :
  fst (mkdir_chain ds f) !! p = Some (File c) <-> f !! p = Some (File c).
Proof.
  revert f. induction ds as [|d ds IH]; intros f; simpl; [reflexivity|].
  destruct (f !! d) as [[c'|]|] eqn:E; simpl.
  - reflexivity.
  - apply IH.
  - rewrite IH. destruct (decide (d = p)) as [->|Hne].
    + rewrite lookup_insert_eq, E. split; discriminate.
    + rewrite lookup_insert_ne by assumption. reflexivity.
Qed.

Lemma makedirs_files (name : string) (f : gmap string node) (p c : string) :
  fst (makedirs name f) !! p = Some (File c) <-> f !! p = Some (File c).
Proof. apply mkdir_chain_files. Qed.

(** One iteration of the retry loop, by what the request meets. *)
Section RetrySteps.

Variable server : string -> nat -> http_result.
Variables (url path : string) (z x y retry : Z) (rest : list Z) (w : world).

Lemma attempts_unreachable (e : exn) :
  server url (sent w) = Unreachable e ->
  attempts server url path z x y (retry :: rest) w =
  attempts server url path z x y rest (handle z x y retry e (sent_request url w)).
Proof. intros H. cbn [attempts requests_get]. rewrite H. reflexivity. Qed.

Lemma attempts_other_status (status_code : Z) (content : string) :
  server url (sent w) = Response status_code content ->
  status_code <> 200 ->
  attempts server url path z x y (retry :: rest) w =
  attempts server url path z x y rest (log (Sleep 1) (sent_request url w)).
Proof.
  intros H Hs. cbn [attempts requests_get]. rewrite H.
  destruct (Z.eqb_spec status_code 200); [contradiction | reflexivity].
Qed.

Lemma attempts_written (content : string) (f : gmap string node) :
  server url (sent w) = Response 200 content ->
  write_file path content (fs w) = inl f ->
  attempts server url path z x y (retry :: rest) w =
  (Success, bump_downloaded (set_fs f (sent_request url w))).
Proof.
  intros H Hw. cbn [attempts requests_get]. rewrite H. cbn [Z.eqb Pos.eqb fs sent_request].
  rewrite Hw. reflexivity.
Qed.

Lemma attempts_write_error (content : string) (e : exn) :
  server url (sent w) = Response 200 content ->
  write_file path content (fs w) = inr e ->
  attempts server url path z x y (retry :: rest) w =
  attempts server url path z x y rest (handle z x y retry e (sent_request url w)).
Proof.
  intros H Hw. cbn [attempts requests_get]. rewrite H. cbn [Z.eqb Pos.eqb fs sent_request].
  rewrite Hw. reflexivity.
Qed.

End RetrySteps.

(** C8: when the fetch reaches the retry loop and each of its requests
    raises a transport-level exception, it sends exactly three requests,
    prints each failure, sleeps 1, 2 and 4 seconds after attempts 0, 1 and
    2, and returns the failed outcome. *)
Theorem transport_errors_backoff server (cfg : Config) (z x y : Z) (w : world)
    (e0 e1 e2 : exn) :
  negb (overwrite cfg) && path_exists (fs w) (tile_path cfg z x y) = false ->
  snd (makedirs (dirname (tile_path cfg z x y)) (fs w)) = None ->
  server (tile_url z x y) (sent w) = Unreachable e0 ->
  server (tile_url z x y) (S (sent w)) = Unreachable e1 ->
  server (tile_url z x y) (S (S (sent w))) = Unreachable e2 ->
  let '(r, w') := download_tile server cfg z x y w in
  r = Return Failed /\
  sent w' = (sent w + 3)%nat /\
  trace w' = trace w ++
    [HttpGet (tile_url z x y); PrintFailure z x y e0; Sleep 1;
     HttpGet (tile_url z x y); PrintFailure z x y e1; Sleep 2;
     HttpGet (tile_url z x y); PrintFailure z x y e2; Sleep 4] /\
  sleeps (trace w') = sleeps (trace w) ++ [2 ^ 0; 2 ^ 1; 2 ^ 2].
Proof.
  intros Hskip Hmk H0 H1 H2. unfold download_tile. rewrite Hskip.
  destruct (makedirs (dirname (tile_path cfg z x y)) (fs w)) as [f o].
  cbn [snd] in Hmk. subst o. rewrite range_0_3.
  generalize dependent (tile_url z x y). intros url H0 H1 H2.
  generalize (tile_path cfg z x y). intros path.
  rewrite (attempts_unreachable server url path z x y 0 _ _ e0) by exact H0.
  rewrite (attempts_unreachable server url path z x y 1 _ _ e1) by exact H1.
  rewrite (attempts_unreachable server url path z x y 2 _ _ e2) by exact H2.
  cbn [attempts handle log set_fs sent_request sent trace fs downloaded].
  repeat rewrite <- app_assoc. cbn [app].
  split; [reflexivity|]. split; [lia|]. split; [reflexivity|].
  unfold sleeps. rewrite flat_map_app. reflexivity.
Qed.

(** C9: when the fetch reaches the retry loop and the server answers each
    of its three requests with a status other than 200, it sleeps one
    second after each answer and returns the failed outcome; the regular
    files of the file system, and their contents, are those it started
    with, so that the target file is neither created nor written. *)
Theorem server_errors_leave_no_file server (cfg : Config) (z x y : Z) (w : world)
    (s0 s1 s2 : Z) (c0 c1 c2 : string) :
  negb (overwrite cfg) && path_exists (fs w) (tile_path cfg z x y) = false ->
  snd (makedirs (dirname (tile_path cfg z x y)) (fs w)) = None ->
  server (tile_url z x y) (sent w) = Response s0 c0 -> s0 <> 200 ->
  server (tile_url z x y) (S (sent w)) = Response s1 c1 -> s1 <> 200 ->
  server (tile_url z x y) (S (S (sent w))) = Response s2 c2 -> s2 <> 200 ->
  let '(r, w') := download_tile server cfg z x y w in
  r = Return Failed /\
  trace w' = trace w ++
    [HttpGet (tile_url z x y); Sleep 1;
     HttpGet (tile_url z x y); Sleep 1;
     HttpGet (tile_url z x y); Sleep 1] /\
  (forall p c, fs w' !! p = Some (File c) <-> fs w !! p = Some (File c)) /\
  (is_file (fs w') (tile_path cfg z x y) <-> is_file (fs w) (tile_path cfg z x y)).
Proof.
  intros Hskip Hmk H0 Hs0 H1 Hs1 H2 Hs2. unfold download_tile. rewrite Hskip.
  pose proof (makedirs_files (dirname (tile_path cfg z x y)) (fs w)) as Hfiles.
  destruct (makedirs (dirname (tile_path cfg z x y)) (fs w)) as [f o].
  cbn [snd] in Hmk. subst o. cbn [fst] in Hfiles. rewrite range_0_3.
  generalize dependent (tile_url z x y). intros url H0 H1 H2.
  generalize (tile_path cfg z x y). intros path.
  rewrite (attempts_other_status server url path z x y 0 _ _ s0 c0) by assumption.
  rewrite (attempts_other_status server url path z x y 1 _ _ s1 c1) by assumption.
  rewrite (attempts_other_status server url path z x y 2 _ _ s2 c2) by assumption.
  cbn [attempts log set_fs sent_request sent trace fs downloaded].
  repeat rewrite <- app_assoc. cbn [app].
  split; [reflexivity|]. split; [reflexivity|]. split; [exact Hfiles|].
  unfold is_file. split; intros [c Hc]; exists c; apply Hfiles, Hc.
Qed.

(** ** The instance counter *)

Ltac continue_with IH :=
  match goal with
  | |- context [attempts ?s ?u ?p ?z ?x ?y ?rs ?w0] =>
      specialize (IH w0); destruct (attempts s u p z x y rs w0);
      cbn [handle log set_fs sent_request downloaded] in IH; exact IH
  end.

Lemma attempts_downloaded server (url path : string) (z x y : Z)
    (retries : list Z) (w : world) :
  let '(o, w') := attempts server url path z x y retries w in
  downloaded w' = downloaded w + (if returned o then 1 else 0).
Proof.
  revert w. induction retries as [|retry rest IH]; intros w; cbn [attempts requests_get].
  - cbn. lia.
  - destruct (server url (sent w)) as [status_code content|e].
    + destruct (status_code =? 200).
      * cbn [fs sent_request]. destruct (write_file path content (fs w)) as [f|e].
        -- cbn. lia.
        -- continue_with IH.
      * continue_with IH.
    + continue_with IH.
Qed.

(** C3, as amended: the fetch never touches the counters of the collection
    loop, which are not part of the world it runs in; of the downloader
    object it changes [self.downloaded] only, adding one on the path that
    returns success and nothing on the skipped, failed and raising paths. *)
Theorem download_tile_downloaded server (cfg : Config) (z x y : Z) (w : world) :
  let '(r, w') := download_tile server cfg z x y w in
  downloaded w' =
  downloaded w + match r with Return Success => 1 | _ => 0 end.
Proof.
  unfold download_tile.
  destruct (negb (overwrite cfg) && path_exists (fs w) (tile_path cfg z x y)).
  - lia.
  - destruct (makedirs (dirname (tile_path cfg z x y)) (fs w)) as [f [e|]].
    + cbn. lia.
    + pose proof (attempts_downloaded server (tile_url z x y) (tile_path cfg z x y)
                    z x y (range 0 3) (set_fs f w)) as H.
      destruct (attempts server (tile_url z x y) (tile_path cfg z x y) z x y
                  (range 0 3) (set_fs f w)) as [o w'].
      cbn [set_fs downloaded] in H. rewrite H. destruct o; reflexivity.
Qed.

(** The claim of C3 fails on the path that returns success: one successful
    fetch from the empty world leaves [self.downloaded] at 1. *)
Lemma download_tile_changes_downloaded :
  downloaded (snd (download_tile server_ok sample_config 13 6849 3343 empty_world))
  <> downloaded empty_world.
Proof. vm_compute. discriminate. Qed.

(** ** Exceptions *)

(** Whatever the server and the file system do inside the retry loop, an
    exception leaves [download_tile] only from [os.makedirs]. *)
Lemma download_tile_raise_only_makedirs server (cfg : Config) (z x y : Z)
    (w : world) (e : exn) :
  fst (download_tile server cfg z x y w) = Raise e ->
  negb (overwrite cfg) && path_exists (fs w) (tile_path cfg z x y) = false /\
  snd (makedirs (dirname (tile_path cfg z x y)) (fs w)) = Some e.
Proof.
  unfold download_tile.
  destruct (negb (overwrite cfg) && path_exists (fs w) (tile_path cfg z x y));
    [discriminate|].
  destruct (makedirs (dirname (tile_path cfg z x y)) (fs w)) as [f [e'|]].
  - cbn. intros H. inversion H. auto.
  - destruct (attempts server (tile_url z x y) (tile_path cfg z x y) z x y
                (range 0 3) (set_fs f w)) as [o w'].
    discriminate.
Qed.

(** An error of the file write is caught inside the loop: with a directory
    in the place of the target file, each attempt fails in [open], is
    printed and backed off, and the fetch returns the failed outcome. *)
Lemma write_error_contained :
  let '(r, w') :=
    download_tile server_ok overwrite_config 13 6849 3343 obstructed_world in
  r = Return Failed /\ sleeps (trace w') = [1; 2; 4] /\ sent w' = 3%nat /\
  downloaded w' = 0 /\
  fs w' !! "./shanghai_tiles/13/6849/3343.png" = Some Dir.
Proof. vm_compute. repeat split; reflexivity. Qed.

(** C2, the code at the failing input: with a regular file in the place
    of the level directory, [os.makedirs] raises [NotADirectoryError] for
    the directory it cannot make below that file, the exception leaves
    [download_tile], and [future.result()] re-raises it in [run]: the
    collection loop ends at the first result, before it counts anything,
    although the task of the second tile ran and succeeded. *)
Theorem makedirs_error_escapes :
  fst (download_tile server_ok sample_config 13 6849 3343 blocked_world)
    = Raise (NotADirectoryError "./shanghai_tiles/13/6849") /\
  fst (run_on server_ok sample_config [(13, 6849, 3343); (14, 13698, 6686)] blocked_world)
    = (stats0, Some (NotADirectoryError "./shanghai_tiles/13/6849")) /\
  fst (execute server_ok sample_config [(13, 6849, 3343); (14, 13698, 6686)] blocked_world)
    = [Raise (NotADirectoryError "./shanghai_tiles/13/6849"); Return Success].
Proof. vm_compute. repeat split; reflexivity. Qed.

(** ** The collection loop *)

Lemma tally_counts (total : Z) (o : outcome) (st : stats) :
  completed (tally total o st) = completed st + 1 /\
  success (tally total o st) = success st + (if outcome_eqb Success o then 1 else 0).
Proof. destruct o; cbn; split; lia. Qed.

(** C1, as amended: every result that [future.result()] returns adds one
    to the number of completed results, and adds one to [success] exactly
    when the outcome is success; a skipped or failed fetch returns [False]
    and is not counted. Over a run of returned results the loop ends
    without exception, having counted all of them as completed and the
    successful ones as successes. *)
Theorem collect_counts_successes (total : Z) (os : list outcome) (st : stats) :
  (forall o,
      completed (tally total o st) = completed st + 1 /\
      (success (tally total o st) = success st + 1 <-> o = Success) /\
      (success (tally total o st) = success st <-> o <> Success)) /\
  let '(st', e) := collect total (List.map Return os) st in
  e = None /\
  completed st' = completed st + Z.of_nat (length os) /\
  success st' = success st + count_outcome Success os.
Proof.
  split.
  - intros o. destruct (tally_counts total o st) as [Hc Hs]. split; [exact Hc|].
    rewrite Hs. destruct o; cbn; split; split; intros; try lia; try congruence.
  - revert st. induction os as [|o os IH]; intros st; cbn [List.map collect].
    + unfold count_outcome. cbn. repeat split; lia.
    + specialize (IH (tally total o st)).
      destruct (collect total (List.map Return os) (tally total o st)) as [st' e].
      destruct IH as [He [Hc Hs]]. destruct (tally_counts total o st) as [Hc1 Hs1].
      split; [exact He|]. unfold count_outcome in *. cbn [List.filter length].
      destruct o; cbn [outcome_eqb length] in *; split; lia.
Qed.

(** The claim of C1 fails on the skipped path: with the tile already on
    disk and [overwrite] false, the fetch is skipped and the run counts one
    completed result and no success. *)
Lemma skipped_existing_not_counted :
  fst (download_tile server_ok sample_config 13 6849 3343 present_world)
    = Return SkippedExisting /\
  let st := fst (fst (run_on server_ok sample_config [(13, 6849, 3343)] present_world)) in
  completed st = 1 /\ success st = 0 /\ success st <> success stats0 + 1.
Proof. vm_compute. repeat split; discriminate. Qed.

(** Every line printed by the loop reports the position [i + 1] of a result
    whose index [i] is a multiple of 100, out of [total]; its rate is over
    [i + 1] results and its speed over [i]. *)
Lemma collect_lines (total : Z) (futures : list result) (st : stats) :
  Forall (line_at total) (printed st) ->
  Forall (line_at total) (printed (fst (collect total futures st))).
Proof.
  revert st. induction futures as [|[o|e] rest IH]; intros st H; cbn [collect fst];
    [assumption | | assumption].
  apply IH. unfold tally. cbn [printed]. destruct (Z.eqb_spec (completed st mod 100) 0) as [E|E];
    [|assumption].
  apply Forall_app. split; [assumption|]. constructor; [|constructor].
  unfold line_at. cbn. replace (completed st + 1 - 1) with (completed st) by lia. auto.
Qed.

(** A line is printed for each index that is a multiple of 100, the first
    result included. *)
Lemma collect_cadence (total : Z) (os : list outcome) (st : stats) :
  length (printed (fst (collect total (List.map Return os) st))) =
  (length (printed st) +
   length (report_points (completed st) (completed st + Z.of_nat (length os))))%nat.
Proof.
  revert st. induction os as [|o os IH]; intros st; cbn [List.map collect fst length].
  - unfold report_points. rewrite Z.add_0_r, range_empty. cbn. lia.
  - rewrite IH. unfold report_points. rewrite (range_cons (completed st)) by lia.
    cbn [List.filter tally completed printed].
    replace (completed st + 1 + Z.of_nat (length os))
      with (completed st + Z.of_nat (S (length os))) by lia.
    destruct (completed st mod 100 =? 0); [rewrite length_app|]; cbn [length]; lia.
Qed.

(** C6, the code at the failing input: a run over five tiles that all
    succeed at the first attempt counts five completed results and five
    successes and prints exactly one progress line, at index 0; the line
    reports 1/5 and the rate 1/1, while its speed is computed from
    [i = 0], not from the one completed result. *)
Theorem five_tile_run_progress :
  let '(st, e, _) := run_on server_ok sample_config five_tiles empty_world in
  e = None /\ completed st = 5 /\ success st = 5 /\
  printed st = [{| p_done := 1; p_total := 5; p_rate_num := 1; p_rate_den := 1;
                   p_speed_num := 0 |}] /\
  Forall (fun p => p_speed_num p <> p_done p) (printed st).
Proof.
  vm_compute. repeat split; try reflexivity.
  constructor; [discriminate | constructor].
Qed.

(** ** Instances on sample inputs *)

Lemma skip_existing_idempotent_witness :
  (overwrite sample_config = false /\
   path_exists (fs present_world) (tile_path sample_config 13 6849 3343) = true) /\
  let '(r1, w1) := download_tile server_ok sample_config 13 6849 3343 present_world in
  let '(r2, w2) := download_tile server_ok sample_config 13 6849 3343 w1 in
  r1 = Return SkippedExisting /\ r2 = Return SkippedExisting /\
  sent w1 = sent present_world /\ gets (trace w1) = gets (trace present_world) /\
  sent w2 = sent present_world /\ gets (trace w2) = gets (trace present_world) /\
  trace w2 = trace present_world.
Proof.
  split; [split; vm_compute; reflexivity|].
  apply (skip_existing_idempotent server_ok sample_config 13 6849 3343 present_world);
    vm_compute; reflexivity.
Defined.

Lemma skip_existing_preserves_fs_witness :
  (overwrite sample_config = false /\
   path_exists (fs present_world) (tile_path sample_config 13 6849 3343) = true) /\
  fs (snd (download_tile server_500 sample_config 13 6849 3343 present_world))
    = fs present_world /\
  (forall e, fst (download_tile server_500 sample_config 13 6849 3343 present_world)
             <> Raise e).
Proof.
  split; [split; vm_compute; reflexivity|].
  apply (skip_existing_preserves_fs server_500 sample_config 13 6849 3343 present_world);
    vm_compute; reflexivity.
Defined.

Lemma transport_errors_backoff_witness :
  (negb (overwrite sample_config)
     && path_exists (fs empty_world) (tile_path sample_config 13 6849 3343) = false /\
   snd (makedirs (dirname (tile_path sample_config 13 6849 3343)) (fs empty_world)) = None /\
   server_down (tile_url 13 6849 3343) (sent empty_world)
     = Unreachable (RequestException "timed out") /\
   server_down (tile_url 13 6849 3343) (S (sent empty_world))
     = Unreachable (RequestException "timed out") /\
   server_down (tile_url 13 6849 3343) (S (S (sent empty_world)))
     = Unreachable (RequestException "timed out")) /\
  let '(r, w') := download_tile server_down sample_config 13 6849 3343 empty_world in
  r = Return Failed /\
  sent w' = (sent empty_world + 3)%nat /\
  trace w' = trace empty_world ++
    [HttpGet (tile_url 13 6849 3343);
     PrintFailure 13 6849 3343 (RequestException "timed out"); Sleep 1;
     HttpGet (tile_url 13 6849 3343);
     PrintFailure 13 6849 3343 (RequestException "timed out"); Sleep 2;
     HttpGet (tile_url 13 6849 3343);
     PrintFailure 13 6849 3343 (RequestException "timed out"); Sleep 4] /\
  sleeps (trace w') = sleeps (trace empty_world) ++ [2 ^ 0; 2 ^ 1; 2 ^ 2].
Proof.
  split; [repeat split; vm_compute; reflexivity|].
  apply (transport_errors_backoff server_down sample_config 13 6849 3343 empty_world
           (RequestException "timed out") (RequestException "timed out")
           (RequestException "timed out"));
    vm_compute; reflexivity.
Defined.

Lemma server_errors_leave_no_file_witness :
  (negb (overwrite sample_config)
     && path_exists (fs empty_world) (tile_path sample_config 13 6849 3343) = false /\
   snd (makedirs (dirname (tile_path sample_config 13 6849 3343)) (fs empty_world)) = None /\
   (server_500 (tile_url 13 6849 3343) (sent empty_world) = Response 500 "" /\ 500 <> 200) /\
   (server_500 (tile_url 13 6849 3343) (S (sent empty_world)) = Response 500 "" /\ 500 <> 200) /\
   (server_500 (tile_url 13 6849 3343) (S (S (sent empty_world))) = Response 500 ""
    /\ 500 <> 200)) /\
  let '(r, w') := download_tile server_500 sample_config 13 6849 3343 empty_world in
  r = Return Failed /\
  trace w' = trace empty_world ++
    [HttpGet (tile_url 13 6849 3343); Sleep 1;
     HttpGet (tile_url 13 6849 3343); Sleep 1;
     HttpGet (tile_url 13 6849 3343); Sleep 1] /\
  (forall p c, fs w' !! p = Some (File c) <-> fs empty_world !! p = Some (File c)) /\
  (is_file (fs w') (tile_path sample_config 13 6849 3343) <->
   is_file (fs empty_world) (tile_path sample_config 13 6849 3343)).
Proof.
  split; [repeat split; try lia; vm_compute; reflexivity|].
  apply (server_errors_leave_no_file server_500 sample_config 13 6849 3343 empty_world
           500 500 500 "" "" "");
    try lia; vm_compute; reflexivity.
Defined.

(** * Further properties *)

(** ** The projection and the generator at the edges *)

Lemma edge_columns_checked : forallb edge_columns (range 0 1024) = true.
Proof. vm_compute. reflexivity. Qed.

Lemma float_bound_checked : forallb float_bound (range (-2099) 0) = true.
Proof. vm_compute. reflexivity. Qed.

(** Below the smallest exponent, [pow(2.0, zoom)] is the same 0.0. *)
Lemma ldexp_clamped (z : Z) : z <= -2099 -> Z.ldexp 1 z = Z.ldexp 1 (-2099).
Proof.
  intros H. unfold Z.ldexp.
  assert (H1 : (emax - emin)%Z = 2098) by reflexivity.
  assert (H2 : (emin - emax - 1)%Z = -2099) by reflexivity.
  rewrite H1, H2. f_equal. f_equal. f_equal. lia.
Qed.

Lemma pow2_clamped (z : Z) (n : num) :
  z <= -2099 -> pow2 z = inl n -> pow2 z = pow2 (-2099).
Proof.
  intros H. unfold pow2. destruct (Z.leb_spec 0 z); [lia|].
  destruct (float_of_int z) as [f|e]; [|discriminate]. intros _.
  rewrite (ldexp_clamped z H). reflexivity.
Qed.

Lemma column_pow2 (lon : float) (z z' : Z) :
  pow2 z = pow2 z' -> column lon z = column lon z'.
Proof. intros H. unfold column. rewrite H. reflexivity. Qed.

Lemma column_returns_pow2 (lon : float) (z x : Z) :
  column lon z = inl x -> exists n, pow2 z = inl n.
Proof. unfold column. destruct (pow2 z) as [n|e]; [eauto | discriminate]. Qed.

Lemma generate_levels_raise (libm_tan libm_asinh : float -> float) (zs : list Z)
    (z : Z) (e0 : exn) :
  In z zs -> level libm_tan libm_asinh z = inr e0 ->
  exists e, snd (generate_levels libm_tan libm_asinh zs) = Some e.
Proof.
  induction zs as [|z0 zs IH]; intros Hin Hl; [destruct Hin|].
  cbn [generate_levels]. destruct Hin as [-> | Hin].
  - rewrite Hl. eauto.
  - destruct (level libm_tan libm_asinh z0) as [tiles|e1]; [|eauto].
    destruct (IH Hin Hl) as [e He].
    destruct (generate_levels libm_tan libm_asinh zs) as [more e']. cbn [snd] in *. eauto.
Qed.

Section Edges.

Variables libm_tan libm_asinh : float -> float.

(** X2: the edges of the longitude range, at every level from 0 to 1023
    and whenever [_latlon_to_tile] returns: longitude -180 gives column 0,
    longitude 0 the column [2^(zoom-1)] in the middle of the grid (from
    level 1 on), and longitude 180, like the largest float below it,
    column [2^zoom], one past the last column of the grid: the projection
    neither wraps nor clamps. *)
Theorem latlon_to_tile_edges (lat : float) (zoom : Z) :
  0 <= zoom <= 1023 ->
  (forall x y, latlon_to_tile libm_tan libm_asinh lat (-180) zoom = inl (x, y) -> x = 0) /\
  (forall x y, latlon_to_tile libm_tan libm_asinh lat 0 zoom = inl (x, y) ->
               1 <= zoom -> x = 2 ^ (zoom - 1)) /\
  (forall x y, latlon_to_tile libm_tan libm_asinh lat 180 zoom = inl (x, y) ->
               x = 2 ^ zoom) /\
  (forall x y, latlon_to_tile libm_tan libm_asinh lat below_180 zoom = inl (x, y) ->
               x = 2 ^ zoom).
Proof.
  intros Hz. pose proof edge_columns_checked as H. rewrite forallb_forall in H.
  specialize (H zoom ltac:(apply range_In; lia)). unfold edge_columns in H.
  destruct (column (-180) zoom) as [a|] eqn:Ha; [|discriminate].
  destruct (column 0 zoom) as [b|] eqn:Hb; [|discriminate].
  destruct (column 180 zoom) as [c|] eqn:Hc; [|discriminate].
  destruct (column below_180 zoom) as [d|] eqn:Hd; [|discriminate].
  apply andb_prop in H. destruct H as [H H4]. apply andb_prop in H.
  destruct H as [H H3]. apply andb_prop in H. destruct H as [H1 H2].
  apply Z.eqb_eq in H1, H3, H4. apply orb_prop in H2.
  repeat split; intros x y Hl; apply latlon_to_tile_column in Hl.
  - congruence.
  - intros Hz1. destruct H2 as [H2 | H2]; [apply Z.eqb_eq in H2; lia|].
    apply Z.eqb_eq in H2. congruence.
  - congruence.
  - congruence.
Qed.

(** X4: at every level from 0 to 1023 at which [_get_tile_range] returns,
    the column of the north-west corner of the box is not right of that
    of the south-east corner and both lie in the grid; the minimum and
    maximum taken on line 36 and 37 pick them in this order, and both
    corner columns lie in the returned range of [x]. *)
Theorem get_tile_range_corner_order (zoom x_min y_min : Z) (x_max y_max : num) :
  0 <= zoom <= 1023 ->
  get_tile_range libm_tan libm_asinh zoom = inl (x_min, x_max, y_min, y_max) ->
  exists x1 x2,
    column (min_lon bounds) zoom = inl x1 /\ column (max_lon bounds) zoom = inl x2 /\
    0 <= x1 <= x2 /\ x2 <= 2 ^ zoom - 1 /\
    x_min = Z.max 0 (x1 - 1) /\ x_max = Int (Z.min (2 ^ zoom - 1) (x2 + 1)) /\
    x_min <= x1 /\ x2 <= Z.min (2 ^ zoom - 1) (x2 + 1).
Proof.
  intros Hz Hr.
  destruct (corner_columns zoom Hz) as (x1 & x2 & Hc1 & Hc2 & Hx & Hx2).
  exists x1, x2. split; [exact Hc1|]. split; [exact Hc2|].
  unfold get_tile_range in Hr.
  destruct (latlon_to_tile libm_tan libm_asinh (max_lat bounds) (min_lon bounds) zoom)
    as [[a y1]|] eqn:H1; [|discriminate].
  destruct (latlon_to_tile libm_tan libm_asinh (min_lat bounds) (max_lon bounds) zoom)
    as [[b y2]|] eqn:H2; [|discriminate].
  apply latlon_to_tile_column in H1, H2. rewrite Hc1 in H1. rewrite Hc2 in H2.
  injection H1 as <-. injection H2 as <-.
  rewrite pow2_nonneg in Hr by lia. cbn [num_pred] in Hr.
  rewrite !min_num_int_Int in Hr. injection Hr as <- <- _ _.
  rewrite (Z.min_l x1 x2), (Z.max_r x1 x2) by lia.
  repeat split; try lia.
Qed.

(** At a negative level, an [x_max] that [_get_tile_range] returns is a
    float. *)
Lemma negative_level_float_bound (zoom x_min y_min : Z) (x_max y_max : num) :
  zoom < 0 ->
  get_tile_range libm_tan libm_asinh zoom = inl (x_min, x_max, y_min, y_max) ->
  is_float x_max = true.
Proof.
  intros Hz Hr. unfold get_tile_range in Hr.
  destruct (latlon_to_tile libm_tan libm_asinh (max_lat bounds) (min_lon bounds) zoom)
    as [[x1 y1]|] eqn:H1; [|discriminate].
  destruct (latlon_to_tile libm_tan libm_asinh (min_lat bounds) (max_lon bounds) zoom)
    as [[x2 y2]|] eqn:H2; [|discriminate].
  destruct (pow2 zoom) as [n|] eqn:Hn; [|discriminate].
  injection Hr as _ <- _ _.
  apply latlon_to_tile_column in H1, H2.
  assert (Hchecked : forall z, -2099 <= z < 0 -> float_bound z = true).
  { intros z Hz'. pose proof float_bound_checked as H. rewrite forallb_forall in H.
    apply H, range_In. lia. }
  destruct (Z_le_gt_dec (-2099) zoom) as [Hge | Hlt].
  - specialize (Hchecked zoom ltac:(lia)). unfold float_bound in Hchecked.
    rewrite H1, H2, Hn in Hchecked. exact Hchecked.
  - pose proof (pow2_clamped zoom n ltac:(lia) Hn) as Hp.
    specialize (Hchecked (-2099) ltac:(lia)). unfold float_bound in Hchecked.
    rewrite <- (column_pow2 _ _ _ Hp), <- (column_pow2 _ _ _ Hp), <- Hp in Hchecked.
    rewrite H1, H2, Hn in Hchecked. exact Hchecked.
Qed.

Lemma negative_level_raises (zoom : Z) :
  zoom < 0 ->
  exists e, level libm_tan libm_asinh zoom = inr e /\
            (forall r, get_tile_range libm_tan libm_asinh zoom = inl r -> e = TypeError).
Proof.
  intros Hz. unfold level.
  destruct (get_tile_range libm_tan libm_asinh zoom) as [[[[x_min x_max] y_min] y_max]|e]
    eqn:Hr.
  - pose proof (negative_level_float_bound zoom x_min y_min x_max y_max Hz Hr) as Hf.
    destruct x_max as [v|f]; [discriminate|]. cbn [num_succ py_range].
    exists TypeError. auto.
  - exists e. split; [reflexivity | intros r Hr'; discriminate].
Qed.

(** X1: a negative first level is an error: when [z_start] is negative
    and not above [z_end], the generator raises before it yields
    anything, [TypeError] from [range] on a float bound unless the
    projection itself raised, and [run] ends with that exception before
    any tile is fetched. *)
Theorem generate_coordinates_negative_zoom server (cfg : Config) (w : world) :
  z_start cfg < 0 -> z_start cfg <= z_end cfg ->
  exists e,
    generate_coordinates libm_tan libm_asinh cfg = ([], Some e) /\
    run libm_tan libm_asinh server cfg w = (stats0, Some e, w) /\
    (forall r, get_tile_range libm_tan libm_asinh (z_start cfg) = inl r -> e = TypeError).
Proof.
  intros Hneg Hle. destruct (negative_level_raises (z_start cfg) Hneg) as (e & Hl & He).
  exists e.
  assert (Hg : generate_coordinates libm_tan libm_asinh cfg = ([], Some e)).
  { unfold generate_coordinates. rewrite range_cons by lia. cbn [generate_levels].
    rewrite Hl. reflexivity. }
  split; [exact Hg|]. split; [|exact He]. unfold run. rewrite Hg. reflexivity.
Qed.

(** X3: the levels from 1024 on are out of reach: when the zoom range
    is not empty and ends at 1024 or above, the generator ends with an
    exception and [run] with it, before any tile is fetched; when the
    first level is 1024 or above the exception is [OverflowError] and
    nothing is yielded. *)
Theorem generate_coordinates_overflow server (cfg : Config) (w : world) :
  z_start cfg <= z_end cfg -> 1024 <= z_end cfg ->
  exists e,
    snd (generate_coordinates libm_tan libm_asinh cfg) = Some e /\
    run libm_tan libm_asinh server cfg w = (stats0, Some e, w) /\
    (1024 <= z_start cfg ->
     generate_coordinates libm_tan libm_asinh cfg = ([], Some OverflowError)).
Proof.
  intros Hle Hz.
  assert (Hl : forall z, 1024 <= z -> level libm_tan libm_asinh z = inr OverflowError).
  { intros z Hz'. unfold level, get_tile_range.
    rewrite latlon_to_tile_overflows by exact Hz'. reflexivity. }
  destruct (generate_levels_raise libm_tan libm_asinh
              (range (z_start cfg) (z_end cfg + 1)) (z_end cfg) OverflowError) as [e He];
    [apply range_In; lia | exact (Hl _ Hz) |].
  exists e. split; [exact He|]. split.
  - unfold run. unfold generate_coordinates in *.
    destruct (generate_levels libm_tan libm_asinh (range (z_start cfg) (z_end cfg + 1)))
      as [coords e']. cbn [snd] in He. subst e'. reflexivity.
  - intros Hs. unfold generate_coordinates. rewrite range_cons by lia.
    cbn [generate_levels]. rewrite (Hl _ Hs). reflexivity.
Qed.

Lemma generate_levels_In (zs : list Z) (z x y : Z) :
  snd (generate_levels libm_tan libm_asinh zs) = None ->
  In (z, x, y) (fst (generate_levels libm_tan libm_asinh zs)) <->
  In z zs /\
  exists x_min x_max y_min y_max,
    get_tile_range libm_tan libm_asinh z = inl (x_min, Int x_max, y_min, Int y_max) /\
    x_min <= x <= x_max /\ y_min <= y <= y_max.
Proof.
  induction zs as [|z0 zs IH]; cbn [generate_levels].
  - intros _. cbn. split; [intros [] | intros [[] _]].
  - destruct (level libm_tan libm_asinh z0) as [tiles|e] eqn:Hl; [|discriminate].
    destruct (generate_levels libm_tan libm_asinh zs) as [more e']. cbn [fst snd] in *.
    intros He. specialize (IH He). rewrite in_app_iff, IH, (level_In _ _ z0 tiles z x y Hl).
    split.
    + intros [[-> H] | [Hin H]]; (split; [|exact H]); [left; reflexivity | right; exact Hin].
    + intros [[<- | Hin] H]; [left | right]; auto.
Qed.

(** X5: when the generator ends without exception, a triple [(z, x, y)]
    is yielded exactly when [z] lies in the zoom range of the config and
    [x] and [y] lie in the int rectangle that [_get_tile_range(z)]
    returns. *)
Theorem generate_coordinates_exact (cfg : Config) (z x y : Z) :
  snd (generate_coordinates libm_tan libm_asinh cfg) = None ->
  In (z, x, y) (fst (generate_coordinates libm_tan libm_asinh cfg)) <->
  z_start cfg <= z <= z_end cfg /\
  exists x_min x_max y_min y_max,
    get_tile_range libm_tan libm_asinh z = inl (x_min, Int x_max, y_min, Int y_max) /\
    x_min <= x <= x_max /\ y_min <= y <= y_max.
Proof.
  intros He. unfold generate_coordinates in *. rewrite (generate_levels_In _ z x y He).
  rewrite range_In. split; intros [Hz H]; (split; [lia | exact H]).
Qed.

(** X6: the corners are covered: at a level from 0 to 1023 of the zoom
    range of a generator that ends without exception, the tile of each
    corner of the box is yielded as soon as its row lies in the grid. *)
Theorem generate_coordinates_corners (cfg : Config) (z x1 y1 x2 y2 : Z) :
  0 <= z <= 1023 -> z_start cfg <= z <= z_end cfg ->
  snd (generate_coordinates libm_tan libm_asinh cfg) = None ->
  latlon_to_tile libm_tan libm_asinh (max_lat bounds) (min_lon bounds) z = inl (x1, y1) ->
  latlon_to_tile libm_tan libm_asinh (min_lat bounds) (max_lon bounds) z = inl (x2, y2) ->
  (0 <= y1 <= 2 ^ z - 1 ->
   In (z, x1, y1) (fst (generate_coordinates libm_tan libm_asinh cfg))) /\
  (0 <= y2 <= 2 ^ z - 1 ->
   In (z, x2, y2) (fst (generate_coordinates libm_tan libm_asinh cfg))).
Proof.
  intros Hz Hin He H1 H2.
  pose proof (get_tile_range_returns libm_tan libm_asinh z x1 y1 x2 y2 ltac:(lia) H1 H2)
    as Hr.
  destruct (corner_columns z Hz) as (a & b & Hc1 & Hc2 & Hx & Hx2).
  rewrite (latlon_to_tile_column _ _ _ _ _ _ _ H1) in Hc1.
  rewrite (latlon_to_tile_column _ _ _ _ _ _ _ H2) in Hc2.
  injection Hc1 as <-. injection Hc2 as <-.
  assert (Hp : 0 < 2 ^ z) by (apply Z.pow_pos_nonneg; lia).
  unfold generate_coordinates in *.
  split; intros Hy; apply (generate_levels_In _ _ _ _ He);
    (split; [apply range_In; lia|]); eexists _, _, _, _; (split; [exact Hr|]);
    revert Hx Hx2 Hy Hp; generalize (2 ^ z); intros p Hx Hx2 Hy Hp; lia.
Qed.

End Edges.

Lemma latlon_to_tile_edges_witness :
  0 <= 13 <= 1023 /\
  ((forall x y, latlon_to_tile poly_tan poly_asinh (max_lat bounds) (-180) 13 = inl (x, y) ->
                x = 0) /\
   (forall x y, latlon_to_tile poly_tan poly_asinh (max_lat bounds) 0 13 = inl (x, y) ->
                1 <= 13 -> x = 2 ^ (13 - 1)) /\
   (forall x y, latlon_to_tile poly_tan poly_asinh (max_lat bounds) 180 13 = inl (x, y) ->
                x = 2 ^ 13) /\
   (forall x y, latlon_to_tile poly_tan poly_asinh (max_lat bounds) below_180 13 = inl (x, y) ->
                x = 2 ^ 13)).
Proof.
  split; [lia|].
  apply (latlon_to_tile_edges poly_tan poly_asinh (max_lat bounds) 13). lia.
Defined.

Lemma get_tile_range_corner_order_witness :
  (0 <= 13 <= 1023 /\
   get_tile_range poly_tan poly_asinh 13 = inl (6845, Int 6877, 3329, Int 3363)) /\
  exists x1 x2,
    column (min_lon bounds) 13 = inl x1 /\ column (max_lon bounds) 13 = inl x2 /\
    0 <= x1 <= x2 /\ x2 <= 2 ^ 13 - 1 /\
    6845 = Z.max 0 (x1 - 1) /\ Int 6877 = Int (Z.min (2 ^ 13 - 1) (x2 + 1)) /\
    6845 <= x1 /\ x2 <= Z.min (2 ^ 13 - 1) (x2 + 1).
Proof.
  split; [split; [lia | vm_compute; reflexivity]|].
  apply (get_tile_range_corner_order poly_tan poly_asinh 13 6845 3329 (Int 6877) (Int 3363));
    [lia | vm_compute; reflexivity].
Defined.

Lemma generate_coordinates_negative_zoom_witness :
  (z_start negative_config < 0 /\ z_start negative_config <= z_end negative_config) /\
  exists e,
    generate_coordinates poly_tan poly_asinh negative_config = ([], Some e) /\
    run poly_tan poly_asinh server_ok negative_config empty_world
    = (stats0, Some e, empty_world) /\
    (forall r, get_tile_range poly_tan poly_asinh (z_start negative_config) = inl r ->
               e = TypeError).
Proof.
  split; [simpl; lia|].
  apply (generate_coordinates_negative_zoom poly_tan poly_asinh server_ok negative_config
           empty_world); simpl; lia.
Defined.

Lemma generate_coordinates_overflow_witness :
  (z_start huge_config <= z_end huge_config /\ 1024 <= z_end huge_config) /\
  exists e,
    snd (generate_coordinates poly_tan poly_asinh huge_config) = Some e /\
    run poly_tan poly_asinh server_ok huge_config empty_world
    = (stats0, Some e, empty_world) /\
    (1024 <= z_start huge_config ->
     generate_coordinates poly_tan poly_asinh huge_config = ([], Some OverflowError)).
Proof.
  split; [simpl; lia|].
  apply (generate_coordinates_overflow poly_tan poly_asinh server_ok huge_config
           empty_world); simpl; lia.
Defined.

Lemma generate_coordinates_exact_witness :
  snd (generate_coordinates poly_tan poly_asinh sample_config) = None /\
  (In (13, 6849, 3343) (fst (generate_coordinates poly_tan poly_asinh sample_config)) <->
   z_start sample_config <= 13 <= z_end sample_config /\
   exists x_min x_max y_min y_max,
     get_tile_range poly_tan poly_asinh 13 = inl (x_min, Int x_max, y_min, Int y_max) /\
     x_min <= 6849 <= x_max /\ y_min <= 3343 <= y_max).
Proof.
  split; [vm_compute; reflexivity|].
  apply (generate_coordinates_exact poly_tan poly_asinh sample_config 13 6849 3343).
  vm_compute. reflexivity.
Defined.

Lemma generate_coordinates_corners_witness :
  (0 <= 13 <= 1023 /\ z_start sample_config <= 13 <= z_end sample_config /\
   snd (generate_coordinates poly_tan poly_asinh sample_config) = None /\
   latlon_to_tile poly_tan poly_asinh (max_lat bounds) (min_lon bounds) 13
   = inl (6846, 3330) /\
   latlon_to_tile poly_tan poly_asinh (min_lat bounds) (max_lon bounds) 13
   = inl (6876, 3362)) /\
  ((0 <= 3330 <= 2 ^ 13 - 1 ->
    In (13, 6846, 3330) (fst (generate_coordinates poly_tan poly_asinh sample_config))) /\
   (0 <= 3362 <= 2 ^ 13 - 1 ->
    In (13, 6876, 3362) (fst (generate_coordinates poly_tan poly_asinh sample_config)))).
Proof.
  split; [split; [lia | split; [simpl; lia | repeat split; vm_compute; reflexivity]]|].
  apply (generate_coordinates_corners poly_tan poly_asinh sample_config 13 6846 3330 6876 3362);
    [lia | simpl; lia | vm_compute; reflexivity ..].
Defined.

(** ** The fetcher, path by path *)

(** What the retry loop does, whatever the server answers: how many
    requests it sends and what it leaves on disk. *)
Lemma attempts_spec server (url path : string) (z x y : Z) (retries : list Z) (w : world) :
  let '(o, w') := attempts server url path z x y retries w in
  (sent w <= sent w' <= sent w + length retries)%nat /\
  (o = Failed -> sent w' = (sent w + length retries)%nat /\ fs w' = fs w) /\
  (o = Success ->
   exists content,
     server url (pred (sent w')) = Response 200 content /\
     fs w' = <[path := File content]> (fs w) /\
     fs w !! path <> Some Dir /\ (sent w < sent w')%nat) /\
  o <> SkippedExisting.
Proof.
  revert w. induction retries as [|retry rest IH]; intros w; cbn [attempts requests_get].
  - cbn [length]. repeat split; try lia; try discriminate.
  - assert (Hnext : forall w0 : world,
               sent w0 = S (sent w) -> fs w0 = fs w ->
               let '(o, w') := attempts server url path z x y rest w0 in
               (sent w <= sent w' <= sent w + length (retry :: rest))%nat /\
               (o = Failed ->
                sent w' = (sent w + length (retry :: rest))%nat /\ fs w' = fs w) /\
               (o = Success ->
                exists content,
                  server url (pred (sent w')) = Response 200 content /\
                  fs w' = <[path := File content]> (fs w) /\
                  fs w !! path <> Some Dir /\ (sent w < sent w')%nat) /\
               o <> SkippedExisting).
    { intros w0 Hs Hf. specialize (IH w0).
      destruct (attempts server url path z x y rest w0) as [o w'].
      destruct IH as [Hb [Hfail [Hsucc Hne]]]. rewrite Hs, Hf in *. cbn [length].
      split; [lia|]. split; [|split; [|exact Hne]].
      - intros Ho. destruct (Hfail Ho) as [H1 H2]. split; [lia | exact H2].
      - intros Ho. destruct (Hsucc Ho) as [content [H1 [H2 [H3 H4]]]].
        exists content. repeat split; try assumption. lia. }
    destruct (server url (sent w)) as [status_code content|e] eqn:Hserver.
    + destruct (Z.eqb_spec status_code 200) as [->|Hstatus].
      * cbn [fs sent_request]. destruct (write_file path content (fs w)) as [f|e] eqn:Hwrite.
        -- cbn [length bump_downloaded set_fs sent_request sent fs]. split; [lia|].
           split; [discriminate|]. split; [|discriminate].
           intros _. exists content. cbn [pred]. unfold write_file in Hwrite.
           destruct (fs w !! path) as [[c|]|] eqn:Hlook; inversion Hwrite; subst;
             repeat split; try assumption; try lia; try rewrite Hlook; discriminate.
        -- apply Hnext; reflexivity.
      * apply Hnext; reflexivity.
    + apply Hnext; reflexivity.
Qed.

Lemma mkdir_chain_keeps (ds : list string) (f : gmap string node) (p : string) (n : node) :
  f !! p = Some n -> fst (mkdir_chain ds f) !! p = Some n.
Proof.
  revert f. induction ds as [|d ds IH]; intros f H; simpl; [assumption|].
  destruct (f !! d) as [[c|]|] eqn:E; simpl.
  - assumption.
  - apply IH, H.
  - apply IH. rewrite lookup_insert_ne; [assumption|]. intros ->. congruence.
Qed.

Lemma makedirs_keeps (name : string) (f : gmap string node) (p : string) (n : node) :
  f !! p = Some n -> fst (makedirs name f) !! p = Some n.
Proof. apply mkdir_chain_keeps. Qed.

(** The three ways [download_tile] ends, with the facts of each. *)
Lemma download_tile_cases server (cfg : Config) (z x y : Z) (w : world) :
  let path := tile_path cfg z x y in
  let '(r, w') := download_tile server cfg z x y w in
  (r = Return SkippedExisting /\ w' = w /\
   overwrite cfg = false /\ path_exists (fs w) path = true) \/
  (exists e, r = Raise e /\ sent w' = sent w /\
             fs w' = fst (makedirs (dirname path) (fs w)) /\
             snd (makedirs (dirname path) (fs w)) = Some e) \/
  (r = Return Failed /\ sent w' = (sent w + 3)%nat /\
   fs w' = fst (makedirs (dirname path) (fs w))) \/
  (r = Return Success /\ (sent w < sent w' <= sent w + 3)%nat /\
   exists content,
     server (tile_url z x y) (pred (sent w')) = Response 200 content /\
     fs w' = <[path := File content]> (fst (makedirs (dirname path) (fs w)))).
Proof.
  intros path. unfold download_tile. fold path.
  destruct (negb (overwrite cfg) && path_exists (fs w) path) eqn:Hskip.
  - left. apply andb_prop in Hskip. destruct Hskip as [Ho He].
    apply negb_true_iff in Ho. auto.
  - destruct (makedirs (dirname path) (fs w)) as [f [e|]] eqn:Hmk; cbn [fst snd].
    + right. left. exists e. auto.
    + pose proof (attempts_spec server (tile_url z x y) path z x y (range 0 3)
                    (set_fs f w)) as H.
      destruct (attempts server (tile_url z x y) path z x y (range 0 3) (set_fs f w))
        as [o w'].
      rewrite range_0_3 in H. cbn [length set_fs sent fs] in H.
      destruct H as [Hb [Hfail [Hsucc Hne]]]. destruct o.
      * right. right. right. split; [reflexivity|].
        destruct (Hsucc eq_refl) as [content [H1 [H2 [_ H4]]]].
        split; [lia|]. exists content. auto.
      * contradiction.
      * right. right. left. destruct (Hfail eq_refl) as [H1 H2]. auto.
Qed.

(** X7: a fetch sends at most three requests; it sends exactly three when
    it fails, at least one when it succeeds, and none when the tile is
    skipped or [os.makedirs] raises. *)
Theorem download_tile_request_count server (cfg : Config) (z x y : Z) (w : world) :
  let '(r, w') := download_tile server cfg z x y w in
  (sent w <= sent w' <= sent w + 3)%nat /\
  match r with
  | Return Failed => sent w' = (sent w + 3)%nat
  | Return Success => (sent w < sent w')%nat
  | Return SkippedExisting => sent w' = sent w
  | Raise _ => sent w' = sent w
  end.
Proof.
  pose proof (download_tile_cases server cfg z x y w) as H. cbv zeta in H.
  destruct (download_tile server cfg z x y w) as [r w'].
  destruct H as [[-> [-> _]] | [[e [-> [Hs _]]] | [[-> [Hs _]] | [-> [Hs _]]]]]; lia.
Qed.

Lemma download_tile_success_file_aux server (cfg : Config) (z x y : Z) (w : world) :
  fst (download_tile server cfg z x y w) = Return Success ->
  exists content,
    fs (snd (download_tile server cfg z x y w)) !! tile_path cfg z x y
    = Some (File content).
Proof.
  pose proof (download_tile_cases server cfg z x y w) as H. cbv zeta in H.
  destruct (download_tile server cfg z x y w) as [r w']. cbn [fst snd]. intros ->.
  destruct H as [[Hr _] | [[e [Hr _]] | [[Hr _] | [_ [_ [content [H1 H2]]]]]]];
    try discriminate.
  exists content. rewrite H2. apply lookup_insert_eq.
Qed.

(** X8: a fetch that returns success has written the body of the answer to
    its last request, which had status 200, to the target path. *)
Theorem download_tile_success_file server (cfg : Config) (z x y : Z) (w : world) :
  fst (download_tile server cfg z x y w) = Return Success ->
  let w' := snd (download_tile server cfg z x y w) in
  exists content,
    server (tile_url z x y) (pred (sent w')) = Response 200 content /\
    fs w' !! tile_path cfg z x y = Some (File content).
Proof.
  pose proof (download_tile_cases server cfg z x y w) as H. cbv zeta in H.
  destruct (download_tile server cfg z x y w) as [r w']. cbn [fst snd]. intros ->.
  destruct H as [[Hr _] | [[e [Hr _]] | [[Hr _] | [_ [_ [content [H1 H2]]]]]]];
    try discriminate.
  exists content. split; [exact H1|]. rewrite H2. apply lookup_insert_eq.
Qed.

Lemma download_tile_success_file_witness :
  fst (download_tile server_ok sample_config 13 6849 3343 empty_world) = Return Success /\
  let w' := snd (download_tile server_ok sample_config 13 6849 3343 empty_world) in
  exists content,
    server_ok (tile_url 13 6849 3343) (pred (sent w')) = Response 200 content /\
    fs w' !! tile_path sample_config 13 6849 3343 = Some (File content).
Proof.
  split; [vm_compute; reflexivity|].
  apply (download_tile_success_file server_ok sample_config 13 6849 3343 empty_world).
  vm_compute. reflexivity.
Defined.

Lemma download_tile_fs server (cfg : Config) (z x y : Z) (w : world) (p : string) :
  let w' := snd (download_tile server cfg z x y w) in
  (forall n, p <> tile_path cfg z x y -> fs w !! p = Some n -> fs w' !! p = Some n) /\
  (p <> tile_path cfg z x y ->
   forall c, fs w' !! p = Some (File c) <-> fs w !! p = Some (File c)) /\
  (path_exists (fs w) p = true -> path_exists (fs w') p = true).
Proof.
  pose proof (download_tile_cases server cfg z x y w) as H. cbv zeta in H.
  destruct (download_tile server cfg z x y w) as [r w']. cbn [snd].
  set (path := tile_path cfg z x y) in *.
  set (f := fst (makedirs (dirname path) (fs w))) in *.
  assert (Hkeep : forall n, fs w !! p = Some n -> f !! p = Some n)
    by (intros n; apply makedirs_keeps).
  assert (Hfiles : forall c, f !! p = Some (File c) <-> fs w !! p = Some (File c))
    by (intros c; apply makedirs_files).
  assert (Hex : path_exists (fs w) p = true -> path_exists f p = true).
  { unfold path_exists. destruct (fs w !! p) as [n|] eqn:E; [|discriminate].
    rewrite (Hkeep n eq_refl). reflexivity. }
  destruct H as [[_ [-> _]] | [[e [_ [_ [-> _]]]] | [[_ [_ ->]] | [_ [_ [content [_ ->]]]]]]].
  - repeat split; auto.
  - repeat split; auto; apply Hfiles.
  - repeat split; auto; apply Hfiles.
  - split; [|split].
    + intros n Hp Hn. rewrite lookup_insert_ne by congruence. auto.
    + intros Hp c. rewrite lookup_insert_ne by congruence. apply Hfiles.
    + intros Hp. unfold path_exists. destruct (decide (path = p)) as [->|Hne].
      * rewrite lookup_insert_eq. reflexivity.
      * rewrite lookup_insert_ne by assumption. apply Hex, Hp.
Qed.

(** X9: a fetch touches no tile but its own: at every other path the
    regular files and their contents are as before, whatever the outcome;
    and nothing that existed is removed. *)
Theorem download_tile_frame server (cfg : Config) (z x y : Z) (w : world) :
  let w' := snd (download_tile server cfg z x y w) in
  (forall p c, p <> tile_path cfg z x y ->
               (fs w' !! p = Some (File c) <-> fs w !! p = Some (File c))) /\
  (forall p, path_exists (fs w) p = true -> path_exists (fs w') p = true).
Proof.
  intros w'. split.
  - intros p c Hp. apply (download_tile_fs server cfg z x y w p), Hp.
  - intros p. apply (download_tile_fs server cfg z x y w p).
Qed.

(** X10: a successful fetch is not repeated: with [overwrite] false, the
    next call for the same tile is skipped, and it changes nothing and
    sends nothing, whatever the server would answer. *)
Theorem download_tile_then_skip server server' (cfg : Config) (z x y : Z) (w : world) :
  overwrite cfg = false ->
  fst (download_tile server cfg z x y w) = Return Success ->
  let w' := snd (download_tile server cfg z x y w) in
  download_tile server' cfg z x y w' = (Return SkippedExisting, w').
Proof.
  intros Ho Hs w'.
  destruct (download_tile_success_file_aux server cfg z x y w Hs) as [content Hc].
  apply download_tile_skip; [exact Ho|]. unfold path_exists. fold w' in Hc.
  rewrite Hc. reflexivity.
Qed.

Lemma download_tile_then_skip_witness :
  (overwrite sample_config = false /\
   fst (download_tile server_ok sample_config 13 6849 3343 empty_world) = Return Success) /\
  let w' := snd (download_tile server_ok sample_config 13 6849 3343 empty_world) in
  download_tile server_down sample_config 13 6849 3343 w' = (Return SkippedExisting, w').
Proof.
  split; [split; vm_compute; reflexivity|].
  apply (download_tile_then_skip server_ok server_down sample_config 13 6849 3343 empty_world);
    vm_compute; reflexivity.
Defined.

(** X11: the common path: a fetch that is not skipped, whose directory
    can be made and whose first request is answered with status 200,
    writes the body to the target path, counts it in [self.downloaded]
    and returns success after that single request, without sleeping. *)
Theorem download_tile_first_attempt server (cfg : Config) (z x y : Z) (w : world)
    (content : string) :
  negb (overwrite cfg) && path_exists (fs w) (tile_path cfg z x y) = false ->
  snd (makedirs (dirname (tile_path cfg z x y)) (fs w)) = None ->
  fst (makedirs (dirname (tile_path cfg z x y)) (fs w)) !! tile_path cfg z x y
    <> Some Dir ->
  server (tile_url z x y) (sent w) = Response 200 content ->
  let '(r, w') := download_tile server cfg z x y w in
  r = Return Success /\
  sent w' = S (sent w) /\
  trace w' = trace w ++ [HttpGet (tile_url z x y)] /\
  downloaded w' = downloaded w + 1 /\
  fs w' !! tile_path cfg z x y = Some (File content).
Proof.
  intros Hskip Hmk Hdir H0. unfold download_tile. rewrite Hskip.
  destruct (makedirs (dirname (tile_path cfg z x y)) (fs w)) as [f o].
  cbn [fst snd] in Hmk, Hdir. subst o. rewrite range_0_3.
  generalize dependent (tile_url z x y). intros url H0.
  generalize dependent (tile_path cfg z x y). intros path Hskip Hdir.
  rewrite (attempts_written server url path z x y 0 _ _ content
             (<[path := File content]> f)).
  - cbn [bump_downloaded set_fs sent_request sent trace fs downloaded].
    repeat split; try reflexivity. apply lookup_insert_eq.
  - exact H0.
  - cbn [set_fs fs]. unfold write_file. destruct (f !! path) as [[c|]|]; congruence.
Qed.

Lemma download_tile_first_attempt_witness :
  (negb (overwrite sample_config)
     && path_exists (fs empty_world) (tile_path sample_config 13 6849 3343) = false /\
   snd (makedirs (dirname (tile_path sample_config 13 6849 3343)) (fs empty_world)) = None /\
   fst (makedirs (dirname (tile_path sample_config 13 6849 3343)) (fs empty_world))
     !! tile_path sample_config 13 6849 3343 <> Some Dir /\
   server_ok (tile_url 13 6849 3343) (sent empty_world) = Response 200 "PNG") /\
  let '(r, w') := download_tile server_ok sample_config 13 6849 3343 empty_world in
  r = Return Success /\
  sent w' = S (sent empty_world) /\
  trace w' = trace empty_world ++ [HttpGet (tile_url 13 6849 3343)] /\
  downloaded w' = downloaded empty_world + 1 /\
  fs w' !! tile_path sample_config 13 6849 3343 = Some (File "PNG").
Proof.
  split; [repeat split; vm_compute; try reflexivity; discriminate|].
  apply (download_tile_first_attempt server_ok sample_config 13 6849 3343 empty_world "PNG");
    vm_compute; try reflexivity; discriminate.
Defined.

(** X12: a retry recovers: when the first request raises and the second
    is answered with status 200, the fetch prints the failure, sleeps one
    second, writes the body and returns success after two requests. *)
Theorem download_tile_recovers server (cfg : Config) (z x y : Z) (w : world)
    (e : exn) (content : string) :
  negb (overwrite cfg) && path_exists (fs w) (tile_path cfg z x y) = false ->
  snd (makedirs (dirname (tile_path cfg z x y)) (fs w)) = None ->
  fst (makedirs (dirname (tile_path cfg z x y)) (fs w)) !! tile_path cfg z x y
    <> Some Dir ->
  server (tile_url z x y) (sent w) = Unreachable e ->
  server (tile_url z x y) (S (sent w)) = Response 200 content ->
  let '(r, w') := download_tile server cfg z x y w in
  r = Return Success /\
  trace w' = trace w ++
    [HttpGet (tile_url z x y); PrintFailure z x y e; Sleep 1; HttpGet (tile_url z x y)] /\
  downloaded w' = downloaded w + 1 /\
  fs w' !! tile_path cfg z x y = Some (File content).
Proof.
  intros Hskip Hmk Hdir H0 H1. unfold download_tile. rewrite Hskip.
  destruct (makedirs (dirname (tile_path cfg z x y)) (fs w)) as [f o].
  cbn [fst snd] in Hmk, Hdir. subst o. rewrite range_0_3.
  generalize dependent (tile_url z x y). intros url H0 H1.
  generalize dependent (tile_path cfg z x y). intros path Hskip Hdir.
  rewrite (attempts_unreachable server url path z x y 0 _ _ e) by exact H0.
  rewrite (attempts_written server url path z x y 1 _ _ content
             (<[path := File content]> f)).
  - cbn [bump_downloaded handle log set_fs sent_request sent trace fs downloaded].
    repeat rewrite <- app_assoc. cbn [app].
    repeat split; try reflexivity. apply lookup_insert_eq.
  - exact H1.
  - cbn [handle log set_fs sent_request fs]. unfold write_file.
    destruct (f !! path) as [[c|]|]; congruence.
Qed.

Lemma download_tile_recovers_witness :
  (negb (overwrite sample_config)
     && path_exists (fs empty_world) (tile_path sample_config 13 6849 3343) = false /\
   snd (makedirs (dirname (tile_path sample_config 13 6849 3343)) (fs empty_world)) = None /\
   fst (makedirs (dirname (tile_path sample_config 13 6849 3343)) (fs empty_world))
     !! tile_path sample_config 13 6849 3343 <> Some Dir /\
   server_flaky (tile_url 13 6849 3343) (sent empty_world)
     = Unreachable (RequestException "timed out") /\
   server_flaky (tile_url 13 6849 3343) (S (sent empty_world)) = Response 200 "PNG") /\
  let '(r, w') := download_tile server_flaky sample_config 13 6849 3343 empty_world in
  r = Return Success /\
  trace w' = trace empty_world ++
    [HttpGet (tile_url 13 6849 3343);
     PrintFailure 13 6849 3343 (RequestException "timed out"); Sleep 1;
     HttpGet (tile_url 13 6849 3343)] /\
  downloaded w' = downloaded empty_world + 1 /\
  fs w' !! tile_path sample_config 13 6849 3343 = Some (File "PNG").
Proof.
  split; [repeat split; vm_compute; try reflexivity; discriminate|].
  apply (download_tile_recovers server_flaky sample_config 13 6849 3343 empty_world
           (RequestException "timed out") "PNG");
    vm_compute; try reflexivity; discriminate.
Defined.

(** X13: an error of the file write is contained: with [overwrite] set and
    a directory in the place of the target file, each of three answers
    with status 200 fails in [open]; the fetch prints the error, backs off
    1, 2 and 4 seconds, returns the failed outcome, counts nothing, and the
    directory is still there. *)
Theorem download_tile_write_error server (cfg : Config) (z x y : Z) (w : world)
    (c0 c1 c2 : string) :
  overwrite cfg = true ->
  fs w !! tile_path cfg z x y = Some Dir ->
  snd (makedirs (dirname (tile_path cfg z x y)) (fs w)) = None ->
  server (tile_url z x y) (sent w) = Response 200 c0 ->
  server (tile_url z x y) (S (sent w)) = Response 200 c1 ->
  server (tile_url z x y) (S (S (sent w))) = Response 200 c2 ->
  let '(r, w') := download_tile server cfg z x y w in
  r = Return Failed /\
  trace w' = trace w ++
    [HttpGet (tile_url z x y);
     PrintFailure z x y (IsADirectoryError (tile_path cfg z x y)); Sleep 1;
     HttpGet (tile_url z x y);
     PrintFailure z x y (IsADirectoryError (tile_path cfg z x y)); Sleep 2;
     HttpGet (tile_url z x y);
     PrintFailure z x y (IsADirectoryError (tile_path cfg z x y)); Sleep 4] /\
  downloaded w' = downloaded w /\
  fs w' !! tile_path cfg z x y = Some Dir.
Proof.
  intros Ho Hdir Hmk H0 H1 H2. unfold download_tile. rewrite Ho. cbn [negb andb].
  pose proof (makedirs_keeps (dirname (tile_path cfg z x y)) (fs w) _ _ Hdir) as Hkeep.
  destruct (makedirs (dirname (tile_path cfg z x y)) (fs w)) as [f o].
  cbn [fst snd] in Hmk, Hkeep. subst o. rewrite range_0_3.
  generalize dependent (tile_url z x y). intros url H0 H1 H2.
  generalize dependent (tile_path cfg z x y). intros path Hdir Hkeep.
  assert (Hw : forall c, write_file path c f = inr (IsADirectoryError path))
    by (intros c; unfold write_file; rewrite Hkeep; reflexivity).
  rewrite (attempts_write_error server url path z x y 0 _ _ c0 (IsADirectoryError path))
    by (try exact H0; apply Hw).
  rewrite (attempts_write_error server url path z x y 1 _ _ c1 (IsADirectoryError path))
    by (try exact H1; apply Hw).
  rewrite (attempts_write_error server url path z x y 2 _ _ c2 (IsADirectoryError path))
    by (try exact H2; apply Hw).
  cbn [attempts handle log set_fs sent_request sent trace fs downloaded].
  repeat rewrite <- app_assoc. cbn [app].
  repeat split; try reflexivity. exact Hkeep.
Qed.

Lemma download_tile_write_error_witness :
  (overwrite overwrite_config = true /\
   fs obstructed_world !! tile_path overwrite_config 13 6849 3343 = Some Dir /\
   snd (makedirs (dirname (tile_path overwrite_config 13 6849 3343)) (fs obstructed_world))
     = None /\
   server_ok (tile_url 13 6849 3343) (sent obstructed_world) = Response 200 "PNG" /\
   server_ok (tile_url 13 6849 3343) (S (sent obstructed_world)) = Response 200 "PNG" /\
   server_ok (tile_url 13 6849 3343) (S (S (sent obstructed_world))) = Response 200 "PNG") /\
  let '(r, w') := download_tile server_ok overwrite_config 13 6849 3343 obstructed_world in
  r = Return Failed /\
  trace w' = trace obstructed_world ++
    [HttpGet (tile_url 13 6849 3343);
     PrintFailure 13 6849 3343 (IsADirectoryError (tile_path overwrite_config 13 6849 3343));
     Sleep 1;
     HttpGet (tile_url 13 6849 3343);
     PrintFailure 13 6849 3343 (IsADirectoryError (tile_path overwrite_config 13 6849 3343));
     Sleep 2;
     HttpGet (tile_url 13 6849 3343);
     PrintFailure 13 6849 3343 (IsADirectoryError (tile_path overwrite_config 13 6849 3343));
     Sleep 4] /\
  downloaded w' = downloaded obstructed_world /\
  fs w' !! tile_path overwrite_config 13 6849 3343 = Some Dir.
Proof.
  split; [repeat split; vm_compute; reflexivity|].
  apply (download_tile_write_error server_ok overwrite_config 13 6849 3343 obstructed_world
           "PNG" "PNG" "PNG");
    vm_compute; reflexivity.
Defined.

(** ** The run *)


(** X14: the loop stops at the first future that raised: the results
    before it are counted, the exception is what the loop ends with, and
    the results after it are never looked at. *)
Theorem collect_stops_at_raise (total : Z) (os : list outcome) (e : exn)
    (rest rest' : list result) (st : stats) :
  collect total (List.map Return os ++ Raise e :: rest) st
  = (fst (collect total (List.map Return os) st), Some e) /\
  collect total (List.map Return os ++ Raise e :: rest) st
  = collect total (List.map Return os ++ Raise e :: rest') st.
Proof.
  revert st. induction os as [|o os IH]; intros st; cbn [List.map app collect fst].
  - split; reflexivity.
  - apply IH.
Qed.

Lemma collect_bounds (total bound : Z) (futures : list result) (st : stats) :
  0 <= success st <= completed st ->
  completed st + Z.of_nat (length futures) <= bound ->
  Forall (fun p => 1 <= p_done p <= bound /\ 0 <= p_rate_num p <= p_rate_den p)
         (printed st) ->
  let st' := fst (collect total futures st) in
  0 <= success st' <= completed st' /\
  completed st <= completed st' <= completed st + Z.of_nat (length futures) /\
  (snd (collect total futures st) = None ->
   completed st' = completed st + Z.of_nat (length futures)) /\
  Forall (fun p => 1 <= p_done p <= bound /\ 0 <= p_rate_num p <= p_rate_den p)
         (printed st').
Proof.
  revert st. induction futures as [|[o|e] rest IH]; intros st Hs Hb Hl;
    cbn [collect fst snd length] in Hb |- *.
  - repeat split; try assumption; lia.
  - rewrite Nat2Z.inj_succ in *.
    destruct (tally_counts total o st) as [Hc1 Hs1].
    assert (Hs' : 0 <= success (tally total o st) <= completed (tally total o st))
      by (destruct o; cbn [outcome_eqb] in Hs1; lia).
    assert (Hl' : Forall (fun p => 1 <= p_done p <= bound /\
                                   0 <= p_rate_num p <= p_rate_den p)
                         (printed (tally total o st))).
    { unfold tally at 1. cbn [printed].
      destruct (completed st mod 100 =? 0); [|assumption].
      apply Forall_app. split; [assumption|]. constructor; [|constructor].
      cbn [p_done p_rate_num p_rate_den]. destruct o; cbn [returned]; lia. }
    specialize (IH (tally total o st) Hs' ltac:(lia) Hl').
    cbv zeta in IH. destruct IH as [H1 [H2 [H3 H4]]].
    split; [exact H1|]. split; [lia|]. split; [|exact H4].
    intros He. specialize (H3 He). lia.
  - repeat split; try assumption; try lia. discriminate.
Qed.

Lemma execute_length server (cfg : Config) (coords : list coord) (w : world) :
  length (fst (execute server cfg coords w)) = length coords.
Proof.
  revert w. induction coords as [|[[z x] y] rest IH]; intros w; cbn [execute];
    [reflexivity|].
  destruct (download_tile server cfg z x y w) as [r w1]. specialize (IH w1).
  destruct (execute server cfg rest w1) as [rs w2]. cbn [fst length] in *. lia.
Qed.

(** X15: the figures of a run are consistent: with [total] the number of
    coordinates the generator yields, the run never counts more results
    than [total] nor more successes than results; when the generator
    raises, the run ends with that exception and counts nothing; when the
    run ends without exception it has counted [total] results; and every
    progress line shows [total], a position between 1 and [total] and a
    success count between 0 and that position. *)
Theorem run_figures (libm_tan libm_asinh : float -> float) server (cfg : Config)
    (w : world) :
  let total := Z.of_nat (length (fst (generate_coordinates libm_tan libm_asinh cfg))) in
  let '(st, e, _) := run libm_tan libm_asinh server cfg w in
  0 <= success st <= completed st /\ completed st <= total /\
  (forall g, snd (generate_coordinates libm_tan libm_asinh cfg) = Some g ->
             e = Some g /\ completed st = 0) /\
  (e = None -> completed st = total) /\
  Forall (fun p => p_total p = total /\ 1 <= p_done p <= total /\
                   0 <= p_rate_num p <= p_done p)
         (printed st).
Proof.
  intros total. unfold run. subst total.
  destruct (generate_coordinates libm_tan libm_asinh cfg) as [coords [g|]]; cbn [fst snd].
  - cbn [stats0 success completed printed]. split; [lia|]. split; [lia|].
    split; [intros g' Hg; split; [congruence | reflexivity]|].
    split; [discriminate | constructor].
  - unfold run_on.
    pose proof (execute_length server cfg coords w) as Hfut.
    destruct (execute server cfg coords w) as [futures w'].
    cbn [fst] in Hfut. set (total := Z.of_nat (length coords)).
    pose proof (collect_bounds total total futures stats0) as Hb.
    pose proof (collect_lines total futures stats0) as Hlines.
    destruct (collect total futures stats0) as [st e]. cbn [fst snd] in *.
    cbn [stats0 success completed printed] in Hb.
    destruct Hb as [H1 [H2 [H3 H4]]]; [lia | subst total; lia | constructor |].
    specialize (Hlines ltac:(constructor)).
    split; [exact H1|]. split; [subst total; lia|]. split; [discriminate|].
    split; [intros He; specialize (H3 He); subst total; lia|].
    rewrite List.Forall_forall in *. intros p Hp.
    destruct (H4 p Hp) as [Hd Hr]. destruct (Hlines p Hp) as [Ht [Hden _]].
    rewrite Hden in Hr. auto.
Qed.

Lemma report_points_snoc (n : nat) :
  report_points 0 (Z.of_nat (S n)) =
  report_points 0 (Z.of_nat n) ++ (if Z.of_nat n mod 100 =? 0 then [Z.of_nat n] else []).
Proof.
  unfold report_points, range. rewrite !Z.sub_0_r, !Nat2Z.id.
  rewrite seq_S, List.map_app, List.filter_app. cbn [List.map List.filter plus]. reflexivity.
Qed.

Lemma report_points_count (n : nat) :
  Z.of_nat (length (report_points 0 (Z.of_nat n))) = (Z.of_nat n + 99) / 100.
Proof.
  induction n as [|n IH].
  - reflexivity.
  - rewrite report_points_snoc, length_app, Nat2Z.inj_add, IH, Nat2Z.inj_succ.
    destruct (Z.eqb_spec (Z.of_nat n mod 100) 0) as [E|E]; cbn [length];
      generalize dependent (Z.of_nat n); intros m _ E; Z.div_mod_to_equations; lia.
Qed.

(** X16: the number of progress lines: a run that collects [n] results
    without exception prints one line for each started hundred, that is
    [(n + 99) / 100] lines, none for an empty run. *)
Theorem collect_line_count (total : Z) (os : list outcome) :
  Z.of_nat (length (printed (fst (collect total (List.map Return os) stats0))))
  = (Z.of_nat (length os) + 99) / 100.
Proof.
  rewrite collect_cadence. cbn [stats0 printed completed length plus].
  rewrite Z.add_0_l. apply report_points_count.
Qed.

Lemma download_tile_counter server (cfg : Config) (z x y : Z) (w : world) :
  let '(r, w') := download_tile server cfg z x y w in
  downloaded w' = downloaded w + match r with Return o => if returned o then 1 else 0
                                           | Raise _ => 0 end.
Proof.
  unfold download_tile.
  destruct (negb (overwrite cfg) && path_exists (fs w) (tile_path cfg z x y)).
  - cbn. lia.
  - destruct (makedirs (dirname (tile_path cfg z x y)) (fs w)) as [f [e|]].
    + cbn. lia.
    + pose proof (attempts_downloaded server (tile_url z x y) (tile_path cfg z x y)
                    z x y (range 0 3) (set_fs f w)) as H.
      destruct (attempts server (tile_url z x y) (tile_path cfg z x y) z x y
                  (range 0 3) (set_fs f w)) as [o w'].
      cbn [set_fs downloaded] in H. exact H.
Qed.

Lemma collect_success_mono (total : Z) (futures : list result) (st : stats) :
  success st <= success (fst (collect total futures st)).
Proof.
  revert st. induction futures as [|[o|e] rest IH]; intros st; cbn [collect fst];
    [lia | | lia].
  specialize (IH (tally total o st)). destruct (tally_counts total o st) as [_ Hs].
  destruct o; cbn [outcome_eqb] in Hs; lia.
Qed.

Lemma execute_collect_counts server (cfg : Config) (total : Z) (coords : list coord)
    (w : world) (st : stats) :
  let '(rs, w') := execute server cfg coords w in
  downloaded w <= downloaded w' /\
  success (fst (collect total rs st)) - success st <= downloaded w' - downloaded w /\
  (snd (collect total rs st) = None ->
   success (fst (collect total rs st)) - success st = downloaded w' - downloaded w).
Proof.
  revert w st. induction coords as [|[[z x] y] rest IH]; intros w st; cbn [execute].
  - cbn [collect fst snd]. repeat split; lia.
  - pose proof (download_tile_counter server cfg z x y w) as Hd.
    destruct (download_tile server cfg z x y w) as [r w1].
    destruct r as [o|e].
    + specialize (IH w1 (tally total o st)).
      destruct (execute server cfg rest w1) as [rs w2]. cbn [collect].
      destruct IH as [Hm [Hle Heq]]. destruct (tally_counts total o st) as [_ Hs].
      destruct o; cbn [outcome_eqb returned] in *;
        (split; [lia|]; split; [lia|]; intros He; specialize (Heq He); lia).
    + specialize (IH w1 st). destruct (execute server cfg rest w1) as [rs w2].
      cbn [collect fst snd]. destruct IH as [Hm _].
      split; [lia|]. split; [lia | discriminate].
Qed.

(** X17: the success count and [self.downloaded] agree: the successes a
    run has counted never exceed the increase of [self.downloaded], and
    when the run ends without exception the two are equal and every
    submitted tile has been counted as completed. *)
Theorem run_on_success_is_downloaded server (cfg : Config) (coords : list coord)
    (w : world) :
  let '(st, e, w') := run_on server cfg coords w in
  0 <= success st <= downloaded w' - downloaded w /\
  (e = None ->
   success st = downloaded w' - downloaded w /\
   completed st = Z.of_nat (length coords)).
Proof.
  unfold run_on.
  pose proof (execute_collect_counts server cfg (Z.of_nat (length coords)) coords w stats0)
    as H.
  pose proof (execute_length server cfg coords w) as Hlen.
  destruct (execute server cfg coords w) as [futures w']. cbn [fst] in Hlen.
  pose proof (collect_success_mono (Z.of_nat (length coords)) futures stats0) as Hmono.
  pose proof (collect_bounds (Z.of_nat (length coords)) (Z.of_nat (length coords))
                futures stats0) as Hb.
  destruct (collect (Z.of_nat (length coords)) futures stats0) as [st e].
  cbn [fst snd stats0 success completed printed] in *.
  destruct H as [_ [Hle Heq]]. split; [lia|]. intros He.
  destruct Hb as [_ [_ [Hc _]]]; [lia | lia | constructor |].
  specialize (Heq He). specialize (Hc He). lia.
Qed.









(** ** Paths and URLs *)

Lemma numeral_string_of_uint (d : Decimal.uint) :
  numeral (NilEmpty.string_of_uint d) = true.
Proof. induction d; cbn [NilEmpty.string_of_uint numeral numeral_char andb]; auto. Qed.

Lemma str_numeral (n : Z) : numeral (str n) = true.
Proof.
  unfold str, NilZero.string_of_int.
  assert (H : forall d, numeral (NilZero.string_of_uint d) = true).
  { intros d. destruct d; try apply numeral_string_of_uint. reflexivity. }
  destruct (Z.to_int n); [apply H | cbn [numeral numeral_char andb]; apply H].
Qed.

Lemma str_nonempty (n : Z) : str n <> "".
Proof.
  unfold str, NilZero.string_of_int.
  assert (H : forall d, NilZero.string_of_uint d <> "") by (intros d; destruct d; discriminate).
  destruct (Z.to_int n); [apply H | discriminate].
Qed.

Lemma str_injective (n n' : Z) : str n = str n' -> n = n'.
Proof.
  intros H.
  assert (Hnn : forall m, Z.to_int m <> Decimal.Pos Decimal.Nil /\
                          Z.to_int m <> Decimal.Neg Decimal.Nil).
  { intros m. destruct m; cbn [Z.to_int]; split; try discriminate;
      intros E; inversion E as [E']; apply (Unsigned.to_uint_nonnil _ E'). }
  assert (Hparse : forall m, NilZero.int_of_string (str m) = Some (Z.to_int m)).
  { intros m. destruct (Hnn m). apply NilZero.isi; assumption. }
  pose proof (Hparse n) as H1. rewrite H, Hparse in H1. inversion H1 as [H2].
  rewrite <- (DecimalZ.of_to n), <- (DecimalZ.of_to n'). congruence.
Qed.

Lemma append_cancel_l (s b b' : string) : s +:+ b = s +:+ b' -> b = b'.
Proof. induction s as [|c s IH]; cbn; intros H; [assumption | inversion H; auto]. Qed.

(** Two numerals followed by the same separator, which is not a numeral
    character, are read back unambiguously. *)
Lemma numeral_split (sep : ascii) (a a' r r' : string) :
  numeral_char sep = false -> numeral a = true -> numeral a' = true ->
  a +:+ String sep r = a' +:+ String sep r' -> a = a' /\ r = r'.
Proof.
  intros Hsep. revert a'. induction a as [|c a IH]; intros [|c' a'] Ha Ha' H;
    simpl in *.
  - inversion H. auto.
  - inversion H; subst. apply andb_prop in Ha'. destruct Ha' as [Hc _]. congruence.
  - inversion H; subst. apply andb_prop in Ha. destruct Ha as [Hc _]. congruence.
  - inversion H; subst. apply andb_prop in Ha, Ha'.
    destruct (IH a' (proj2 Ha) (proj2 Ha') H2) as [-> ->]. auto.
Qed.

Lemma numeral_no_leading_slash (s r : string) :
  numeral s = true -> s <> "" -> starts_with_slash (s +:+ r) = false.
Proof.
  intros Hs Hne. destruct s as [|c s]; [contradiction|].
  simpl in *. apply andb_prop in Hs.
  destruct Hs as [Hc _]. unfold is_slash. destruct (Ascii.eqb_spec c "/"); [|reflexivity].
  subst. discriminate.
Qed.

Lemma path_join_cancel (a b b' : string) :
  starts_with_slash b = false -> starts_with_slash b' = false ->
  path_join a b = path_join a b' -> b = b'.
Proof.
  intros Hb Hb'. unfold path_join. rewrite Hb, Hb'.
  destruct (a =? "")%string; [auto|].
  destruct (ends_with_slash a); intros H; apply append_cancel_l in H; [assumption|].
  apply (append_cancel_l "/"), H.
Qed.

Lemma tile_path_injective (cfg : Config) (z x y z' x' y' : Z) :
  tile_path cfg z x y = tile_path cfg z' x' y' -> z = z' /\ x = x' /\ y = y'.
Proof.
  unfold tile_path. intros H. apply path_join_cancel in H;
    try (apply numeral_no_leading_slash; [apply str_numeral | apply str_nonempty]).
  change (str z +:+ String "/" (str x +:+ String "/" (str y +:+ String "." "png"))
          = str z' +:+ String "/" (str x' +:+ String "/" (str y' +:+ String "." "png")))
    in H.
  apply numeral_split in H; [|reflexivity | apply str_numeral ..]. destruct H as [Hz H].
  apply numeral_split in H; [|reflexivity | apply str_numeral ..]. destruct H as [Hx H].
  apply numeral_split in H; [|reflexivity | apply str_numeral ..]. destruct H as [Hy _].
  auto using str_injective.
Qed.

Lemma tile_url_injective (z x y z' x' y' : Z) :
  tile_url z x y = tile_url z' x' y' -> z = z' /\ x = x' /\ y = y'.
Proof.
  unfold tile_url. intros H. apply append_cancel_l in H.
  change (str x +:+ String "&" ("y=" +:+ (str y +:+ String "&" ("z=" +:+ str z)))
          = str x' +:+ String "&" ("y=" +:+ (str y' +:+ String "&" ("z=" +:+ str z'))))
    in H.
  apply numeral_split in H; [|reflexivity | apply str_numeral ..]. destruct H as [Hx H].
  apply append_cancel_l in H.
  apply numeral_split in H; [|reflexivity | apply str_numeral ..]. destruct H as [Hy H].
  apply append_cancel_l in H. auto using str_injective.
Qed.

(** X20: tiles are told apart: two coordinates with the same file path
    under one configuration, or with the same request URL, are the same
    coordinate. *)
Theorem tile_names_injective (cfg : Config) (z x y z' x' y' : Z) :
  (tile_path cfg z x y = tile_path cfg z' x' y' -> (z, x, y) = (z', x', y')) /\
  (tile_url z x y = tile_url z' x' y' -> (z, x, y) = (z', x', y')).
Proof.
  split; intros H.
  - apply tile_path_injective in H. destruct H as [-> [-> ->]]. reflexivity.
  - apply tile_url_injective in H. destruct H as [-> [-> ->]]. reflexivity.
Qed.

(** X21: fetches do not interfere: fetching one tile leaves the file of
    every other tile as it was, present or absent, whatever the outcome
    of the fetch. *)
Theorem download_tile_other_tiles server (cfg : Config) (z x y z' x' y' : Z)
    (w : world) :
  (z', x', y') <> (z, x, y) ->
  let w' := snd (download_tile server cfg z x y w) in
  forall c, fs w' !! tile_path cfg z' x' y' = Some (File c) <->
            fs w !! tile_path cfg z' x' y' = Some (File c).
Proof.
  intros Hne w' c.
  apply (download_tile_fs server cfg z x y w (tile_path cfg z' x' y')).
  intros H. apply tile_path_injective in H. destruct H as [-> [-> ->]]. congruence.
Qed.

Lemma download_tile_other_tiles_witness :
  (13, 6849, 3343) <> (13, 6849, 3344) /\
  let w' := snd (download_tile server_ok sample_config 13 6849 3344 present_world) in
  forall c, fs w' !! tile_path sample_config 13 6849 3343 = Some (File c) <->
            fs present_world !! tile_path sample_config 13 6849 3343 = Some (File c).
Proof.
  split; [discriminate|].
  apply (download_tile_other_tiles server_ok sample_config 13 6849 3344 13 6849 3343
           present_world).
  discriminate.
Defined.
